(** * Orion pack: the base action helpers and the get_node_id action

    A shallow embedding of [actions/lib/actions.py] (class
    [OrionBaseAction]) and [actions/get_node_id.py] (class [GetNodeId]),
    and the properties of the node resolver, the connection resolver,
    the credential resolver and the transfer-status poller.

    Python values are embedded as a small universe of JSON-like values;
    subscripting, [in], [len] and [==] follow Python and fail with the
    exception Python raises.  An action is a function from the state of
    the action object and of the platform to a result and a new state. *)

From Stdlib Require Import ZArith String List Lia.
From stdpp Require Import base gmap strings list.

Local Set Warnings "-register-all".
Local Open Scope string_scope.

(** ** Python values, exceptions and built-in operations *)

Module Py.

(** The values that a decoded JSON answer or the YAML configuration can
    hold.  Dictionaries have string keys, as JSON objects do.  Floating
    point numbers are left out. *)
Inductive value : Type :=
  | VNone
  | VBool (b : bool)
  | VInt (z : Z)
  | VStr (s : string)
  | VList (l : list value)
  | VDict (m : gmap string value).

(** The exceptions that reach the actions.  Those raised by the actions
    themselves carry their message; [KeyError] carries the key.
    [TransportError] stands for whatever the query client raises on a
    communication failure. *)
Inductive exn : Type :=
  | KeyError (key : value)
  | IndexError
  | TypeError
  | OverflowError
  | AttributeError
  | UnboundLocalError (name : string)
  | ValueError (msg : string)
  | Exception (msg : string)
  | TransportError (detail : string).

Inductive result (A : Type) : Type :=
  | Ok (a : A)
  | Raise (e : exn).
Arguments Ok {A} a.
Arguments Raise {A} e.

Definition rbind {A B} (r : result A) (k : A -> result B) : result B :=
  match r with
  | Ok a => k a
  | Raise e => Raise e
  end.

(** [seq[i]]: a negative index counts from the end. *)
Definition norm_index (len : nat) (i : Z) : option nat :=
  let j := if (i <? 0)%Z then (i + Z.of_nat len)%Z else i in
  if ((0 <=? j)%Z && (j <? Z.of_nat len)%Z)%bool then Some (Z.to_nat j) else None.

(** An index must be an integer; [bool] is a subclass of [int]. *)
Definition as_index (k : value) : option Z :=
  match k with
  | VInt z => Some z
  | VBool b => Some (Z.b2z b)
  | _ => None
  end.

(** [c[k]] *)
Definition getitem (c k : value) : result value :=
  match c with
  | VDict m =>
      match k with
      | VStr s =>
          match m !! s with
          | Some v => Ok v
          | None => Raise (KeyError k)
          end
      | VList _ | VDict _ => Raise TypeError          (* unhashable key *)
      | VNone | VBool _ | VInt _ => Raise (KeyError k)
      end
  | VList l =>
      match as_index k with
      | Some i =>
          match norm_index (length l) i with
          | Some n =>
              match l !! n with
              | Some v => Ok v
              | None => Raise IndexError
              end
          | None => Raise IndexError
          end
      | None => Raise TypeError
      end
  | VStr s =>
      match as_index k with
      | Some i =>
          match norm_index (String.length s) i with
          | Some n =>
              match String.get n s with
              | Some a => Ok (VStr (String a EmptyString))
              | None => Raise IndexError
              end
          | None => Raise IndexError
          end
      | None => Raise TypeError
      end
  | VNone | VBool _ | VInt _ => Raise TypeError
  end.

(** [r[k]] where [r] is itself the result of a subscript. *)
Definition item (r : result value) (k : value) : result value :=
  rbind r (fun c => getitem c k).

(** [v == s] for a string literal [s] *)
Definition eq_str (v : value) (s : string) : bool :=
  match v with
  | VStr t => String.eqb t s
  | _ => false
  end.

(** [v == z] for an integer literal [z]; [True == 1] and [False == 0]. *)
Definition eq_int (v : value) (z : Z) : bool :=
  match as_index v with
  | Some n => (n =? z)%Z
  | None => false
  end.

(** [k in c] for a string literal [k] *)
Definition contains (k : string) (c : value) : result bool :=
  match c with
  | VDict m => Ok (match m !! k with Some _ => true | None => false end)
  | VList l => Ok (existsb (fun v => eq_str v k) l)
  | VStr s => Ok (match String.index 0 k s with Some _ => true | None => false end)
  | VNone | VBool _ | VInt _ => Raise TypeError
  end.

(** [len(c)] *)
Definition len (c : value) : result nat :=
  match c with
  | VDict m => Ok (size m)
  | VList l => Ok (length l)
  | VStr s => Ok (String.length s)
  | VNone | VBool _ | VInt _ => Raise TypeError
  end.

(** [c[k] = v] for a string literal [k]; the updated container. *)
Definition setitem (c : value) (k : string) (v : value) : result value :=
  match c with
  | VDict m => Ok (VDict (<[k := v]> m))
  | _ => Raise TypeError
  end.

(** A local variable that may not have been assigned yet. *)
Definition local (name : string) (v : option value) : result value :=
  match v with
  | Some x => Ok x
  | None => Raise (UnboundLocalError name)
  end.

End Py.
Import Py.

Coercion VStr : string >-> value.

Notation "r @[ k ]" := (item r k) (at level 1, left associativity, format "r @[ k ]").

(** ** State and error monad *)

(** A computation over a state [S] that returns a value or raises. *)
Definition M (S A : Type) : Type := S -> result A * S.

Definition ret {S A} (a : A) : M S A := fun s => (Ok a, s).
Definition raise {S A} (e : exn) : M S A := fun s => (Raise e, s).
Definition lift {S A} (r : result A) : M S A := fun s => (r, s).
Definition bind {S A B} (c : M S A) (k : A -> M S B) : M S B :=
  fun s =>
    match c s with
    | (Ok a, s') => k a s'
    | (Raise e, s') => (Raise e, s')
    end.
Definition modify {S} (f : S -> S) : M S unit := fun s => (Ok tt, f s).

(** [try: c except E: h] where [handles] tells the exceptions of class
    [E]; other exceptions pass through. *)
Definition try_except {S A} (c : M S A) (handles : exn -> bool) (h : M S A) : M S A :=
  fun s =>
    match c s with
    | (Raise e, s') => if handles e then h s' else (Raise e, s')
    | r => r
    end.

Definition is_KeyError (e : exn) : bool :=
  match e with KeyError _ => true | _ => false end.
Definition is_IndexError (e : exn) : bool :=
  match e with IndexError => true | _ => false end.
Definition is_ValueError (e : exn) : bool :=
  match e with ValueError _ => true | _ => false end.
(** a bare [except:] *)
Definition any_exception (e : exn) : bool := true.

Declare Scope act_scope.
Delimit Scope act_scope with act.
Notation "x <- c1 ;; c2" := (bind c1 (fun x => c2))
  (at level 100, c1 at next level, right associativity) : act_scope.
Notation "c1 ;; c2" := (bind c1 (fun _ => c2))
  (at level 100, right associativity) : act_scope.
Local Open Scope act_scope.

(** ** The action object and the platform it talks to *)

(** The client handle of [orionsdk.SwisClient(host, user, password)]. *)
Record SwisClient : Type := {
  hostname : value;
  username : value;
  password : value
}.

Inductive level : Type := DEBUG | INFO.

(** The state an action runs in: the attributes of the action object
    ([config], [client], [logger]) and the platform seen from the
    action.  [responses n] is what the query client answers to the
    [n]-th query of the run, a decoded JSON value or an exception;
    [queries] records the queries sent so far, [sleeps] the calls of
    [time.sleep], [user_errors] the messages of [send_user_error]. *)
Record self : Type := {
  config : value;
  client : option SwisClient;
  logger : list (level * string);
  responses : nat -> result value;
  queries : list (string * gmap string value);
  sleeps : list Z;
  user_errors : list string
}.

Definition set_client (c : option SwisClient) (s : self) : self :=
  {| config := config s; client := c; logger := logger s;
     responses := responses s; queries := queries s; sleeps := sleeps s;
     user_errors := user_errors s |}.

Definition add_log (l : level) (msg : string) (s : self) : self :=
  {| config := config s; client := client s; logger := logger s ++ [(l, msg)];
     responses := responses s; queries := queries s; sleeps := sleeps s;
     user_errors := user_errors s |}.

Definition add_query (swql : string) (kargs : gmap string value) (s : self) : self :=
  {| config := config s; client := client s; logger := logger s;
     responses := responses s; queries := queries s ++ [(swql, kargs)];
     sleeps := sleeps s; user_errors := user_errors s |}.

Definition add_sleep (d : Z) (s : self) : self :=
  {| config := config s; client := client s; logger := logger s;
     responses := responses s; queries := queries s; sleeps := sleeps s ++ [d];
     user_errors := user_errors s |}.

Definition add_user_error (msg : string) (s : self) : self :=
  {| config := config s; client := client s; logger := logger s;
     responses := responses s; queries := queries s; sleeps := sleeps s;
     user_errors := user_errors s ++ [msg] |}.

Definition act (A : Type) : Type := M self A.

Definition logger_debug (msg : string) : act unit := modify (add_log DEBUG msg).
Definition logger_info (msg : string) : act unit := modify (add_log INFO msg).

(** [time.sleep(d)] for a whole number of seconds.  A negative length
    is refused with [ValueError]; a length above [9223372036] seconds,
    which in nanoseconds does not fit the signed 64-bit time of the
    interpreter, is refused with [OverflowError]. *)
Definition time_sleep (d : Z) : act unit :=
  if (d <? 0)%Z then raise (ValueError "sleep length must be non-negative")
  else if (9223372036 <? d)%Z then raise OverflowError
  else modify (add_sleep d).

(** Modelled from the spec: [lib.utils.send_user_error] is not among the
    sources; errors surface to the user with a descriptive message, so
    the call is taken to record its message for the user. *)
Definition send_user_error (msg : string) : act unit := modify (add_user_error msg).

(** Modelled from the spec: the class [lib.node.OrionNode] is not among
    the sources.  A node record has the nullable fields [npm_id], [uri],
    [ip_address], [caption] and [ncm_id], all unset in a fresh record; a
    field holding [VNone] is unset. *)
Record OrionNode : Type := {
  npm_id : value;
  uri : value;
  ip_address : value;
  caption : value;
  ncm_id : value
}.

Definition OrionNode_new : OrionNode :=
  {| npm_id := VNone; uri := VNone; ip_address := VNone; caption := VNone;
     ncm_id := VNone |}.

Definition is_None (v : value) : bool :=
  match v with VNone => true | _ => false end.

(** Modelled from the spec: the property [OrionNode.npm] is not among
    the sources; the secondary lookup is made if [npm_id] is set. *)
Definition npm (n : OrionNode) : bool := negb (is_None (npm_id n)).

Definition set_npm_id (v : value) (n : OrionNode) : OrionNode :=
  {| npm_id := v; uri := uri n; ip_address := ip_address n;
     caption := caption n; ncm_id := ncm_id n |}.
Definition set_uri (v : value) (n : OrionNode) : OrionNode :=
  {| npm_id := npm_id n; uri := v; ip_address := ip_address n;
     caption := caption n; ncm_id := ncm_id n |}.
Definition set_ip_address (v : value) (n : OrionNode) : OrionNode :=
  {| npm_id := npm_id n; uri := uri n; ip_address := v;
     caption := caption n; ncm_id := ncm_id n |}.
Definition set_caption (v : value) (n : OrionNode) : OrionNode :=
  {| npm_id := npm_id n; uri := uri n; ip_address := ip_address n;
     caption := v; ncm_id := ncm_id n |}.
Definition set_ncm_id (v : value) (n : OrionNode) : OrionNode :=
  {| npm_id := npm_id n; uri := uri n; ip_address := ip_address n;
     caption := caption n; ncm_id := v |}.

(** [obj.field = e]: evaluate [e], then store it in the local object. *)
Definition assign (set : value -> OrionNode -> OrionNode) (e : result value)
  : M OrionNode unit :=
  v <- lift e ;; modify (set v).

(** Run a block that mutates the local node [n] and give the node back
    as the block left it. *)
Definition with_node (n : OrionNode) (c : M OrionNode unit) : act OrionNode :=
  fun s =>
    match c n with
    | (Ok _, n') => (Ok n', s)
    | (Raise e, _) => (Raise e, s)
    end.

Definition nl : string := String (Ascii.ascii_of_nat 10) EmptyString.

(** ** actions/lib/actions.py *)

Module OrionBaseAction.
Section Methods.

(** [lib.utils.is_ip], which is not among the sources: whether the
    identifier parses as an IP literal. *)
Variable is_ip : string -> bool.

(** Python's [str.format] of a value, as [{}] prints it. *)
Variable str : value -> string.

(** [__init__] *)
Definition init (cfg : value) (platform : nat -> result value) : result self :=
  rbind (contains "orion" cfg) (fun has =>
  if negb has then Raise (ValueError "Orion host details not in the config.yaml")
  else Ok {| config := cfg; client := None; logger := []; responses := platform;
             queries := []; sleeps := []; user_errors := [] |}).

Definition connect (platform : value) : act value :=
  platform <-
    (if is_None platform then
       try_except
         (fun s => ((Ok (config s))@["defaults"]@["platform"], s))
         is_IndexError
         (send_user_error "No default Orion platform." ;;
          raise (ValueError "No default Orion platform."))
     else ret platform) ;;
  logger_debug ("Connecting to Orion platform: " +:+ str platform) ;;
  try_except
    (fun s =>
       (host <- lift (Ok (config s))@["orion"]@[platform]@["host"] ;;
        user <- lift (Ok (config s))@["orion"]@[platform]@["user"] ;;
        pass <- lift (Ok (config s))@["orion"]@[platform]@["password"] ;;
        modify (set_client
                  (Some {| hostname := host; username := user; password := pass |}))) s)
    is_KeyError
    (raise (ValueError "Orion host details not in the config.yaml")) ;;
  ret platform.

(** [query]: run SWQL against the platform through the client handle. *)
Definition query (swql : string) (kargs : gmap string value) : act value :=
  fun s =>
    match client s with
    | None => (Raise AttributeError, s)
    | Some _ => (responses s (length (queries s)), add_query swql kargs s)
    end.

Definition nodes_swql (query_for_where : string) : string :=
  "SELECT NodeID, Uri, IPAddress, Caption" +:+ nl +:+
  "        FROM Orion.Nodes" +:+ nl +:+
  "        WHERE " +:+ query_for_where +:+ "=@query_on".

Definition cirrus_swql : string :=
  "SELECT NodeID" +:+ nl +:+
  "            FROM Cirrus.Nodes" +:+ nl +:+
  "            WHERE CoreNodeID=@CoreNodeID".

(** [get_node], up to the [raise] for several matches: the query on
    the inventory of nodes and the fields taken from its single row. *)
Definition get_node_npm (node : string) : act OrionNode :=
  let orion_node := OrionNode_new in
  let query_for_where := if is_ip node then "IPAddress" else "Caption" in
  let swql := nodes_swql query_for_where in
  let kargs : gmap string value := {[ "query_on" := VStr node ]} in
  data <- query swql kargs ;;
  has <- lift (contains "results" data) ;;
  if negb has then
    let msg := "No results from Orion: " +:+ str data in
    logger_info msg ;;
    raise (Exception msg)
  else
    n <- lift (rbind (Ok data)@["results"] len) ;;
    if (n =? 1)%nat then
      with_node orion_node
        (try_except
           (assign set_npm_id (Ok data)@["results"]@[VInt 0]@["NodeID"] ;;
            assign set_uri (Ok data)@["results"]@[VInt 0]@["Uri"] ;;
            assign set_ip_address (Ok data)@["results"]@[VInt 0]@["IPAddress"] ;;
            assign set_caption (Ok data)@["results"]@[VInt 0]@["Caption"])
           is_IndexError
           (ret tt))
    else
      n <- lift (rbind (Ok data)@["results"] len) ;;
      if (2 <=? n)%nat then
        logger_debug ("Muliple Nodes match '" +:+ node +:+ "' Caption: " +:+ str data) ;;
        raise (ValueError ("Muliple Nodes match '" +:+ node +:+ "' Caption"))
      else ret orion_node.

(** [get_node], from [if orion_node.npm:] on: the query on the nodes of
    NCM and the [return]. *)
Definition get_node_ncm (orion_node : OrionNode) : act OrionNode :=
  if npm orion_node then
    let swql := cirrus_swql in
    let kargs : gmap string value := {[ "CoreNodeID" := npm_id orion_node ]} in
    data <- query swql kargs ;;
    (* Don't raise an exception if this fails.
       The platform may not have NCM installed. *)
    has <- lift (contains "results" data) ;;
    if negb has then
      let msg := "No results from Orion NCM: " +:+ str data in
      logger_info msg ;;
      ret orion_node
    else
      n <- lift (rbind (Ok data)@["results"] len) ;;
      if (n =? 1)%nat then
        with_node orion_node
          (try_except
             (assign set_ncm_id (Ok data)@["results"]@[VInt 0]@["NodeID"])
             is_IndexError
             (ret tt))
      else ret orion_node
  else ret orion_node.

Definition get_node (node : string) : act OrionNode :=
  orion_node <- get_node_npm node ;;
  get_node_ncm orion_node.

Definition get_snmp_community (community std_community : value) : act value :=
  if negb (is_None community) then ret community
  else if negb (is_None std_community) then
    try_except
      (fun s => ((Ok (config s))@["defaults"]@["snmp"]@[std_community], s))
      is_KeyError
      (raise (ValueError "Invalid standard community"))
  else
    raise (ValueError "Need one of community or std_community").

Definition credential_swql : string :=
  "SELECT ID FROM Orion.Credential" +:+ nl +:+
  "        WHERE CredentialType=@CredentialType and Name=@name".

Definition SnmpCredentialsV2 : string :=
  "SolarWinds.Orion.Core.Models.Credentials.SnmpCredentialsV2".

Definition get_snmp_cred_id (community : value) : act value :=
  (* Check if community is a known standard, otherwise
     use it as the community. *)
  name <- try_except (get_snmp_community VNone community)
            is_ValueError
            (ret community) ;;
  let swql := credential_swql in
  let kargs : gmap string value :=
    {[ "CredentialType" := VStr SnmpCredentialsV2; "name" := name ]} in
  orion_data <- query swql kargs ;;
  n <- lift (rbind (Ok orion_data)@["results"] len) ;;
  if (n =? 1)%nat then lift (Ok orion_data)@["results"]@[VInt 0]@["ID"]
  else raise (ValueError "Failed to lookup community in Orion.Credential!").

Definition engines_swql : string :=
  "SELECT EngineID, ServerName, IP, ServerType" +:+ nl +:+
  "            FROM Orion.Engines" +:+ nl +:+
  "            WHERE ServerName=@poller".

Definition get_engine_id (poller : value) : act value :=
  if eq_str poller "primary" then ret (VInt 1)
  else
    let swql := engines_swql in
    let kargs : gmap string value := {[ "poller" := poller ]} in
    data <- query swql kargs ;;
    n <- lift (rbind (Ok data)@["results"] len) ;;
    if (n =? 1)%nat then lift (Ok data)@["results"]@[VInt 0]@["EngineID"]
    else
      send_user_error "Invalid poller name" ;;
      raise (ValueError "Invalid poller name").

Definition transfer_swql : string :=
  "SELECT TransferID, NodeID, Action, RequestedConfigType," +:+ nl +:+
  "            RequestedScript, RequestedReboot, ConfigID, TransferProtocol," +:+ nl +:+
  "            Status, ErrorMessage, DeviceOutput, DateTime, UserName" +:+ nl +:+
  "            FROM NCM.TransferResults" +:+ nl +:+
  "            WHERE TransferID=@transfer_id".

(** [while True: body]: the body answers [Some b] when it breaks out of
    the loop with the locals [b], and [None] when it goes round again.
    The loop has no bound; [fuel] bounds the number of rounds that are
    unfolded, and [None] is returned when it runs out. *)
Fixpoint while_True {A} (fuel : nat) (body : act (option A)) (s : self)
  : option (result A * self) :=
  match fuel with
  | O => None
  | S fuel' =>
      match body s with
      | (Raise e, s') => Some (Raise e, s')
      | (Ok (Some b), s') => Some (Ok b, s')
      | (Ok None, s') => while_True fuel' body s'
      end
  end.

(** One round of the loop of [get_ncm_transfer_results]; on [break] the
    locals [ts] and [transfer_data] are handed on. *)
Definition poll (transfer_id : value) (sleep_delay : Z) (ts : gmap string value)
  : act (option (gmap string value * value)) :=
  let swql := transfer_swql in
  let kargs : gmap string value := {[ "transfer_id" := transfer_id ]} in
  transfer_data <- query swql kargs ;;
  status <- lift (Ok transfer_data)@["results"]@[VInt 0]@["Status"] ;;
  if eq_int status 1 then
    time_sleep sleep_delay ;;
    ret None
  else if eq_int status 2 then
    ret (Some (<["status" := VStr "Complete"]> ts, transfer_data))
  else if eq_int status 3 then
    ret (Some (<["status" := VStr "Error"]> ts, transfer_data))
  else
    ret (Some (<["status" := VStr "Unknown"]> ts, transfer_data)).

(** The assignments after the loop. *)
Definition transfer_summary (ts : gmap string value) (transfer_data : value)
  : result (gmap string value) :=
  rbind (Ok transfer_data)@["results"]@[VInt 0]@["RequestedScript"] (fun v =>
  let ts := <["RequestedScript" := v]> ts in
  rbind (Ok transfer_data)@["results"]@[VInt 0]@["RequestedReboot"] (fun v =>
  let ts := <["RequestedReboot" := v]> ts in
  rbind (Ok transfer_data)@["results"]@[VInt 0]@["ErrorMessage"] (fun v =>
  let ts := <["ErrorMessage" := v]> ts in
  rbind (Ok transfer_data)@["results"]@[VInt 0]@["DeviceOutput"] (fun v =>
  let ts := <["DeviceOutput" := v]> ts in
  rbind (Ok transfer_data)@["results"]@[VInt 0]@["UserName"] (fun v =>
  let ts := <["UserName" := v]> ts in
  Ok ts))))).

Definition default_sleep_delay : Z := 10.

Definition get_ncm_transfer_results (fuel : nat) (transfer_id : value) (sleep_delay : Z)
  (s : self) : option (result (gmap string value) * self) :=
  let ts : gmap string value := ∅ in
  match while_True fuel (poll transfer_id sleep_delay ts) s with
  | None => None
  | Some (Raise e, s') => Some (Raise e, s')
  | Some (Ok (ts, transfer_data), s') => Some (transfer_summary ts transfer_data, s')
  end.

(** A call [self.connect(...)] with the positional arguments [args]:
    [connect] has the one parameter [platform] and no default for it,
    so any other number of arguments is refused before the body runs. *)
Definition connect_call (args : list value) : act value :=
  match args with
  | [platform] => connect platform
  | _ => raise TypeError
  end.

End Methods.
End OrionBaseAction.

(** ** actions/get_node_id.py *)

Module GetNodeId.
Import OrionBaseAction.
Section Methods.

Variable str : value -> string.

(** The [try] block of [run] and the [return] after it.  The local
    [orion_data] is bound by the assignment in the [try] body only. *)
Definition run_query (swql : string) : act value :=
  let kargs : gmap string value := ∅ in
  let orion_data : option value := None in
  orion_data <-
    try_except
      (data <- query swql kargs ;; ret (Some data))
      any_exception
      (d <- lift (local "orion_data" orion_data) ;;
       d <- lift (setitem d "results" (VStr "empty")) ;;
       ret (Some d)) ;;
  lift (local "orion_data" orion_data).

Definition run (matchtype matchstring : value) : act value :=
  connect_call str [] ;;
  let swql := "SELECT nodeid, sysname, caption FROM Orion.Nodes" in
  let swql :=
    if eq_str matchtype "sysname" then
      swql +:+ " where sysname = '" +:+ str matchstring +:+ "'"
    else if eq_str matchtype "caption" then
      swql +:+ " where Caption = '" +:+ str matchstring +:+ "'"
    else swql in
  run_query swql.

End Methods.
End GetNodeId.

(** ** Vocabulary of the statements *)

(** The answer the platform gives to the [k]-th query counted from the
    state [s] on ([k = 0] is the next query). *)
Definition answer (s : self) (k : nat) : result value :=
  responses s (k + length (queries s)).

(** A well-formed answer: a mapping whose ['results'] entry is the list
    [rows]. *)
Definition yields (r : result value) (rows : list value) : Prop :=
  exists m : gmap string value, r = Ok (VDict m) /\ m !! "results" = Some (VList rows).

(** An answer that is a mapping without a ['results'] entry. *)
Definition lacks_results (r : result value) : Prop :=
  exists m : gmap string value, r = Ok (VDict m) /\ m !! "results" = None.

(** A row, a mapping from column names to values, holds [v] in column
    [col]. *)
Definition column (row : value) (col : string) (v : value) : Prop :=
  exists r : gmap string value, row = VDict r /\ r !! col = Some v.


(** *** The node resolver *)

(** The query of the first half of [get_node]. *)
Definition primary_query (is_ip : string -> bool) (node : string)
  : string * gmap string value :=
  (OrionBaseAction.nodes_swql (if is_ip node then "IPAddress" else "Caption"),
   {[ "query_on" := VStr node ]}).

(** The query of the second half of [get_node]. *)
Definition secondary_query (n : OrionNode) : string * gmap string value :=
  (OrionBaseAction.cirrus_swql, {[ "CoreNodeID" := npm_id n ]}).

(** The state after the query of the first half of [get_node]. *)
Definition after_primary (is_ip : string -> bool) (node : string) (s : self) : self :=
  add_query (fst (primary_query is_ip node)) (snd (primary_query is_ip node)) s.

(** The state after the query of the second half of [get_node]. *)
Definition after_secondary (n : OrionNode) (s : self) : self :=
  add_query (fst (secondary_query n)) (snd (secondary_query n)) s.

(** The four columns of a row of the inventory of nodes. *)
Definition node_row (row id u ip c : value) : Prop :=
  column row "NodeID" id /\ column row "Uri" u /\
  column row "IPAddress" ip /\ column row "Caption" c.

(** An answer of NCM that [get_node] goes on from: no ['results'] entry,
    or a list of rows that, if it is a single row, has a [NodeID]. *)
Definition tolerated (r : result value) : Prop :=
  lacks_results r \/
  exists rows, yields r rows /\
    forall row, rows = [row] -> exists v, column row "NodeID" v.

(** *** The credential resolver *)

(** The configuration of [s] maps the standard community names by
    [snmp], under [defaults] and [snmp]. *)
Definition snmp_mapping (s : self) (snmp : gmap string value) : Prop :=
  exists cfg d : gmap string value,
    config s = VDict cfg /\ cfg !! "defaults" = Some (VDict d) /\
    d !! "snmp" = Some (VDict snmp).

(** The name [get_snmp_cred_id] looks up for [community]: what
    [get_snmp_community] resolves it to as a standard name, or
    [community] itself when that resolution fails with a [ValueError]. *)
Definition resolved_name (community : value) (s : self) (name : value) : Prop :=
  fst (OrionBaseAction.get_snmp_community VNone community s) = Ok name \/
  (exists msg,
     fst (OrionBaseAction.get_snmp_community VNone community s) = Raise (ValueError msg) /\
     name = community).

(** *** The transfer-status poller *)


(** The query of [get_ncm_transfer_results]. *)
Definition transfer_query (transfer_id : value) : string * gmap string value :=
  (OrionBaseAction.transfer_swql, {[ "transfer_id" := transfer_id ]}).



(** The state after one round of the loop that found the transfer in
    progress: the query was sent and the delay slept. *)
Definition polled (transfer_id : value) (sleep_delay : Z) (s : self) : self :=
  add_sleep sleep_delay
    (add_query (fst (transfer_query transfer_id)) (snd (transfer_query transfer_id)) s).

(** *** Frames and errors *)

(** [keeps f c]: running [c] does not change the part [f] of the state. *)
Definition keeps {S A B} (f : S -> B) (c : M S A) : Prop :=
  forall s, f (snd (c s)) = f s.

(** The exceptions a subscript can raise: [KeyError], [TypeError] and
    [IndexError]. *)
Definition subscript_error (e : exn) : bool :=
  match e with
  | KeyError _ | TypeError | IndexError => true
  | _ => false
  end.

(** *** The connection resolver and the poller resolver *)

(** The configuration [cfg] does not give the host, user and password
    of the platform [name]: it has no [orion] entry, or the mapping
    under [orion] has no entry [name], or that entry is a mapping
    without one of the three keys. *)
Definition unconfigured (cfg : value) (name : string) : Prop :=
  exists m : gmap string value, cfg = VDict m /\
    (m !! "orion" = None \/
     exists orion : gmap string value, m !! "orion" = Some (VDict orion) /\
       (orion !! name = None \/
        exists entry : gmap string value, orion !! name = Some (VDict entry) /\
          (entry !! "host" = None \/ entry !! "user" = None \/
           entry !! "password" = None))).

(** The first of the columns [cols], in their order, that the row [r]
    does not have. *)
Fixpoint first_missing (cols : list string) (r : gmap string value) : option string :=
  match cols with
  | [] => None
  | col :: cols' =>
      match r !! col with
      | Some _ => first_missing cols' r
      | None => Some col
      end
  end.

(** ** Examples of configurations, platforms and rows *)

(** A platform that answers the queries of a run with the answers of
    the list, in order, and with an empty result set after them. *)
Definition scripted (answers : list (result value)) (n : nat) : result value :=
  match answers !! n with
  | Some r => r
  | None => Ok (VDict {[ "results" := VList [] ]})
  end.

(** The answer with the rows [rows]. *)
Definition results (rows : list value) : result value :=
  Ok (VDict {[ "results" := VList rows ]}).

(** A configuration with the platform [lab] and the standard community
    [ro], and no default platform. *)
Definition example_config : value :=
  VDict {[ "orion" := VDict {[ "lab" := VDict {[ "host" := VStr "orion.lab";
                                                  "user" := VStr "st2";
                                                  "password" := VStr "secret" ]} ]};
           "defaults" := VDict {[ "snmp" := VDict {[ "ro" := VStr "public" ]} ]} ]}.

Definition example_client : SwisClient :=
  {| hostname := VStr "orion.lab"; username := VStr "st2"; password := VStr "secret" |}.

(** An action object connected to the platform that gives [answers]. *)
Definition example_self (answers : list (result value)) : self :=
  {| config := example_config; client := Some example_client; logger := [];
     responses := scripted answers; queries := []; sleeps := []; user_errors := [] |}.

Definition example_str (v : value) : string :=
  match v with
  | VStr s => s
  | VNone => "None"
  | _ => "<value>"
  end.

Definition example_is_ip (node : string) : bool := String.eqb node "10.0.0.7".

(** A row of the inventory of nodes, a row of the nodes of NCM and the
    record of that node once NCM knows it. *)
Definition example_row : value :=
  VDict {[ "NodeID" := VInt 42; "Uri" := VStr "swis://orion.lab/Orion/Orion.Nodes/NodeID=42";
           "IPAddress" := VStr "10.0.0.7"; "Caption" := VStr "core-sw1" ]}.

Definition example_ncm_row : value := VDict {[ "NodeID" := VInt 7 ]}.

Definition example_node : OrionNode :=
  {| npm_id := VInt 42; uri := VStr "swis://orion.lab/Orion/Orion.Nodes/NodeID=42";
     ip_address := VStr "10.0.0.7"; caption := VStr "core-sw1"; ncm_id := VInt 7 |}.

(** A row of transfer results with the status code [code], and the
    answer made of it. *)
Definition example_transfer_row (code : Z) : value :=
  VDict {[ "Status" := VInt code; "RequestedScript" := VStr "show run";
           "RequestedReboot" := VBool false; "ErrorMessage" := VNone;
           "DeviceOutput" := VStr "done"; "UserName" := VStr "st2" ]}.

Definition example_transfer (code : Z) : result value :=
  results [example_transfer_row code].

(** A configuration whose [defaults] entry names no platform, and the
    action object [__init__] makes of it. *)
Definition no_default_config : value :=
  VDict {[ "orion" := VDict {[ "lab" := VDict {[ "host" := VStr "orion.lab";
                                                  "user" := VStr "st2";
                                                  "password" := VStr "secret" ]} ]};
           "defaults" := VDict ∅ ]}.

Definition no_default_self : self :=
  {| config := no_default_config; client := None; logger := [];
     responses := scripted []; queries := []; sleeps := []; user_errors := [] |}.

(** A configuration whose [defaults] entry is empty in the YAML file
    and so is [None], on a connected action object. *)
Definition null_defaults_self : self :=
  {| config := VDict {[ "orion" := VDict ∅; "defaults" := VNone ]};
     client := Some example_client; logger := [];
     responses := scripted []; queries := []; sleeps := []; user_errors := [] |}.


(** A row of the engines. *)
Definition example_engine_row : value :=
  VDict {[ "EngineID" := VInt 3; "ServerName" := VStr "poller2";
           "IP" := VStr "10.0.0.2"; "ServerType" := VStr "Additional" ]}.

(** A fresh action object whose configuration names [lab] as the
    default platform. *)
Definition lab_default_self : self :=
  {| config :=
       VDict {[ "orion" := VDict {[ "lab" := VDict {[ "host" := VStr "orion.lab";
                                                      "user" := VStr "st2";
                                                      "password" := VStr "secret" ]} ]};
                "defaults" := VDict {[ "platform" := VStr "lab" ]} ]};
     client := None; logger := [];
     responses := scripted []; queries := []; sleeps := []; user_errors := [] |}.

(** A row of the inventory of nodes without [Uri] and [Caption], and a
    row of transfer results without [ErrorMessage] and [UserName]. *)
Definition example_short_row : gmap string value :=
  {[ "NodeID" := VInt 42; "IPAddress" := VStr "10.0.0.7" ]}.


(** * Properties *)

Import OrionBaseAction.

(** ** Evaluation of subscripts and of the monad *)

Lemma item_key (m : gmap string value) (k : string) (v : value) :
  m !! k = Some v -> (Ok (VDict m))@[k] = Ok v.
Proof. intros Hm. unfold item; simpl. now rewrite Hm. Qed.

Lemma item_key_missing (m : gmap string value) (k : string) :
  m !! k = None -> (Ok (VDict m))@[k] = Raise (KeyError k).
Proof. intros Hm. unfold item; simpl. now rewrite Hm. Qed.

Lemma item_results (m : gmap string value) (v : value) :
  m !! "results" = Some v -> (Ok (VDict m))@["results"] = Ok v.
Proof. intros Hm. unfold item; simpl. now rewrite Hm. Qed.


Lemma item_column (row : value) (col : string) (v : value) :
  column row col v -> (Ok row)@[col] = Ok v.
Proof. intros (r & -> & Hr). unfold item; simpl. now rewrite Hr. Qed.


Lemma bind_ok {S A B} (c : M S A) (k : A -> M S B) (s s' : S) (a : A) :
  c s = (Ok a, s') -> bind c k s = k a s'.
Proof. intros H. unfold bind. now rewrite H. Qed.

Lemma bind_inv {S A B} (c : M S A) (k : A -> M S B) (s s2 : S) (b : B) :
  bind c k s = (Ok b, s2) ->
  exists a s1, c s = (Ok a, s1) /\ k a s1 = (Ok b, s2).
Proof.
  unfold bind. destruct (c s) as [[a|e] s1]; intros H.
  - now exists a, s1.
  - discriminate.
Qed.

(** ** What a computation leaves alone *)

Lemma keeps_ret {S A B} (f : S -> B) (a : A) : keeps f (ret a).
Proof. now intros s. Qed.

Lemma keeps_raise {S A B} (f : S -> B) (e : exn) : keeps f (@raise S A e).
Proof. now intros s. Qed.

Lemma keeps_lift {S A B} (f : S -> B) (r : result A) : keeps f (lift r).
Proof. now intros s. Qed.

Lemma keeps_modify {S B} (f : S -> B) (g : S -> S) :
  (forall s, f (g s) = f s) -> keeps f (modify g).
Proof. intros H s. apply H. Qed.

Lemma keeps_bind {S A A' B} (f : S -> B) (c : M S A) (k : A -> M S A') :
  keeps f c -> (forall a, keeps f (k a)) -> keeps f (bind c k).
Proof.
  intros Hc Hk s. unfold bind. specialize (Hc s).
  destruct (c s) as [[a|e] s1]; simpl in *.
  - now rewrite Hk.
  - assumption.
Qed.

Lemma keeps_try_except {S A B} (f : S -> B) (c h : M S A) (handles : exn -> bool) :
  keeps f c -> keeps f h -> keeps f (try_except c handles h).
Proof.
  intros Hc Hh s. unfold try_except. specialize (Hc s).
  destruct (c s) as [[a|e] s1]; simpl in *; [assumption|].
  destruct (handles e); simpl; [now rewrite Hh | assumption].
Qed.

Lemma keeps_with_node {B} (f : self -> B) (n : OrionNode) (c : M OrionNode unit) :
  keeps f (with_node n c).
Proof. intros s. unfold with_node. now destruct (c n) as [[a|e] n']. Qed.

Ltac keeps_step :=
  first
    [ apply keeps_ret | apply keeps_raise | apply keeps_lift
    | apply keeps_with_node
    | apply keeps_modify; intros ?; reflexivity
    | apply keeps_try_except
    | apply keeps_bind; [ | intros ? ]
    | match goal with
      | |- keeps _ (if ?b then _ else _) => destruct b
      end ].

Ltac keeps_all := cbv zeta; repeat keeps_step.

(** ** The query client *)

Lemma query_connected (s : self) (swql : string) (kargs : gmap string value) :
  is_Some (client s) ->
  query swql kargs s = (answer s 0, add_query swql kargs s).
Proof. intros [h Hh]. unfold query, answer. now rewrite Hh. Qed.

Lemma answer_add_query (s : self) (swql : string) (kargs : gmap string value) (k : nat) :
  answer (add_query swql kargs s) k = answer s (S k).
Proof.
  unfold answer, add_query; simpl. rewrite length_app; simpl.
  f_equal. lia.
Qed.

Section NodeResolver.

Variable is_ip : string -> bool.
Variable str : value -> string.

Lemma get_node_npm_queries (node : string) (s : self) :
  is_Some (client s) ->
  queries (snd (get_node_npm is_ip str node s)) = (queries s ++ [primary_query is_ip node])%list.
Proof.
  intros Hc. unfold get_node_npm. cbv zeta.
  unfold bind at 1. rewrite query_connected by assumption.
  destruct (answer s 0) as [data|e]; [|reflexivity].
  match goal with
  | |- queries (snd (?k ?s1)) = _ =>
      assert (Hk : keeps queries k) by keeps_all; rewrite Hk
  end.
  reflexivity.
Qed.

(** The first half never touches [ncm_id]. *)
Lemma get_node_npm_ncm_id (node : string) (s s1 : self) (n : OrionNode) :
  get_node_npm is_ip str node s = (Ok n, s1) -> ncm_id n = VNone.
Proof.
  unfold get_node_npm. cbv zeta. intros H.
  apply bind_inv in H as (data & s2 & _ & H).
  apply bind_inv in H as (has & s3 & _ & H).
  destruct has; cbn [negb] in H.
  2:{ apply bind_inv in H as (? & ? & _ & H). discriminate. }
  apply bind_inv in H as (k & s4 & _ & H).
  destruct (k =? 1)%nat.
  - unfold with_node in H.
    match type of H with
    | context [try_except ?c ?h ?r OrionNode_new] =>
        assert (Hk : keeps ncm_id (try_except c h r))
          by (keeps_all; unfold assign; keeps_all);
        specialize (Hk OrionNode_new);
        destruct (try_except c h r OrionNode_new) as [[u|e] n']
    end; [|discriminate].
    injection H as <- _. exact Hk.
  - apply bind_inv in H as (k' & s5 & _ & H).
    destruct (2 <=? k')%nat.
    + apply bind_inv in H as (? & ? & _ & H). discriminate.
    + injection H as <- _. reflexivity.
Qed.

Lemma get_node_npm_zero_rows (node : string) (s : self) :
  is_Some (client s) -> yields (answer s 0) [] ->
  get_node_npm is_ip str node s = (Ok OrionNode_new, after_primary is_ip node s).
Proof.
  intros Hc (m & Hr & Hm).
  unfold get_node_npm. cbv zeta. unfold bind at 1.
  rewrite query_connected, Hr by assumption.
  unfold bind, lift. cbn [contains]. rewrite Hm. cbn [negb].
  rewrite (item_results _ _ Hm). reflexivity.
Qed.

Lemma get_node_npm_one_row (node : string) (s : self) (row id u ip c : value) :
  is_Some (client s) -> yields (answer s 0) [row] -> node_row row id u ip c ->
  get_node_npm is_ip str node s =
    (Ok {| npm_id := id; uri := u; ip_address := ip; caption := c; ncm_id := VNone |},
     after_primary is_ip node s).
Proof.
  intros Hc (m & Hr & Hm) (Hid & Hu & Hip & Hcap).
  unfold get_node_npm. cbv zeta. unfold bind at 1.
  rewrite query_connected, Hr by assumption.
  unfold bind at 1, lift at 1. cbn [contains]. rewrite Hm. cbn [negb].
  unfold bind at 1, lift at 1. rewrite (item_results _ _ Hm). cbn [rbind len length Nat.eqb].
  unfold with_node, try_except, assign, bind, lift, modify.
  change ((Ok (VList [row]))@[VInt 0]) with (Ok row).
  rewrite (item_column _ _ _ Hid), (item_column _ _ _ Hu),
    (item_column _ _ _ Hip), (item_column _ _ _ Hcap).
  reflexivity.
Qed.

Lemma get_node_npm_many_rows (node : string) (s : self) (r1 r2 : value) (rest : list value) :
  is_Some (client s) -> yields (answer s 0) (r1 :: r2 :: rest) ->
  fst (get_node_npm is_ip str node s) =
    Raise (ValueError ("Muliple Nodes match '" +:+ node +:+ "' Caption")).
Proof.
  intros Hc (m & Hr & Hm).
  unfold get_node_npm. cbv zeta. unfold bind at 1.
  rewrite query_connected, Hr by assumption.
  unfold bind, lift. cbn [contains]. rewrite Hm. cbn [negb].
  rewrite (item_results _ _ Hm). reflexivity.
Qed.

Lemma get_node_npm_lacks_results (node : string) (s : self) (m : gmap string value) :
  is_Some (client s) -> answer s 0 = Ok (VDict m) -> m !! "results" = None ->
  fst (get_node_npm is_ip str node s) =
    Raise (Exception ("No results from Orion: " +:+ str (VDict m))).
Proof.
  intros Hc Hr Hm.
  unfold get_node_npm. cbv zeta. unfold bind at 1.
  rewrite query_connected, Hr by assumption.
  unfold bind, lift. cbn [contains]. rewrite Hm. reflexivity.
Qed.

Lemma get_node_ncm_unset (n : OrionNode) (s : self) :
  npm_id n = VNone -> get_node_ncm str n s = (Ok n, s).
Proof. intros H. unfold get_node_ncm, npm. now rewrite H. Qed.

Lemma npm_set (n : OrionNode) : npm n = true <-> npm_id n <> VNone.
Proof. unfold npm. destruct (npm_id n); simpl; split; congruence. Qed.

Lemma get_node_ncm_lacks_results (n : OrionNode) (s : self) :
  is_Some (client s) -> npm_id n <> VNone -> lacks_results (answer s 0) ->
  fst (get_node_ncm str n s) = Ok n.
Proof.
  intros Hc Hn (m & Hr & Hm). apply npm_set in Hn.
  unfold get_node_ncm. rewrite Hn. cbv zeta. unfold bind at 1.
  rewrite query_connected, Hr by assumption.
  unfold bind, lift. cbn [contains]. rewrite Hm. reflexivity.
Qed.

Lemma get_node_ncm_one_row (n : OrionNode) (s : self) (row v : value) :
  is_Some (client s) -> npm_id n <> VNone ->
  yields (answer s 0) [row] -> column row "NodeID" v ->
  get_node_ncm str n s = (Ok (set_ncm_id v n), after_secondary n s).
Proof.
  intros Hc Hn (m & Hr & Hm) Hv. apply npm_set in Hn.
  unfold get_node_ncm. rewrite Hn. cbv zeta. unfold bind at 1.
  rewrite query_connected, Hr by assumption.
  unfold bind at 1, lift at 1. cbn [contains]. rewrite Hm. cbn [negb].
  unfold bind at 1, lift at 1. rewrite (item_results _ _ Hm). cbn [rbind len length Nat.eqb].
  unfold with_node, try_except, assign, bind, lift, modify.
  change ((Ok (VList [row]))@[VInt 0]) with (Ok row).
  rewrite (item_column _ _ _ Hv).
  reflexivity.
Qed.

Lemma get_node_ncm_other_rows (n : OrionNode) (s : self) (rows : list value) :
  is_Some (client s) -> npm_id n <> VNone ->
  yields (answer s 0) rows -> length rows <> 1 ->
  get_node_ncm str n s = (Ok n, after_secondary n s).
Proof.
  intros Hc Hn (m & Hr & Hm) Hlen. apply npm_set in Hn.
  unfold get_node_ncm. rewrite Hn. cbv zeta. unfold bind at 1.
  rewrite query_connected, Hr by assumption.
  unfold bind at 1, lift at 1. cbn [contains]. rewrite Hm. cbn [negb].
  unfold bind at 1, lift at 1. rewrite (item_results _ _ Hm). cbn [rbind len].
  apply Nat.eqb_neq in Hlen. rewrite Hlen. reflexivity.
Qed.

(** The second half changes no field but [ncm_id], and that one only
    for a node whose [npm_id] is set. *)
Lemma get_node_ncm_fields (n n' : OrionNode) (s s' : self) :
  get_node_ncm str n s = (Ok n', s') ->
  npm_id n' = npm_id n /\ uri n' = uri n /\ ip_address n' = ip_address n /\
  caption n' = caption n /\ (ncm_id n' = ncm_id n \/ npm_id n <> VNone).
Proof.
  unfold get_node_ncm. destruct (npm n) eqn:Hn.
  2:{ intros H. injection H as <- _. tauto. }
  apply npm_set in Hn. cbv zeta. intros H.
  apply bind_inv in H as (data & s1 & _ & H).
  apply bind_inv in H as (has & s2 & _ & H).
  destruct has; cbn [negb] in H.
  2:{ apply bind_inv in H as (? & ? & _ & H). injection H as <- _. tauto. }
  apply bind_inv in H as (k & s3 & _ & H).
  destruct (k =? 1)%nat.
  2:{ injection H as <- _. tauto. }
  unfold with_node, try_except, assign, bind, lift, modify in H.
  destruct ((Ok data)@["results"]@[VInt 0]@["NodeID"]) as [v|e].
  - injection H as <- _. simpl. tauto.
  - destruct e; simpl in H; try discriminate. injection H as <- _. tauto.
Qed.

Lemma get_node_ncm_queries (n : OrionNode) (s : self) :
  queries (snd (get_node_ncm str n s)) = queries s \/
  (npm_id n <> VNone /\
   queries (snd (get_node_ncm str n s)) = (queries s ++ [secondary_query n])%list).
Proof.
  unfold get_node_ncm. destruct (npm n) eqn:Hn; [|now left].
  apply npm_set in Hn. cbv zeta. destruct (client s) as [h|] eqn:Hc.
  - right. split; [assumption|].
    unfold bind at 1. rewrite query_connected by (rewrite Hc; eauto).
    destruct (answer s 0) as [data|e]; [|reflexivity].
    match goal with
    | |- queries (snd (?k ?s1)) = _ =>
        assert (Hk : keeps queries k) by keeps_all; rewrite Hk
    end.
    reflexivity.
  - left. unfold bind at 1, query at 1. now rewrite Hc.
Qed.

Lemma bind_fst_raise {S A B} (c : M S A) (k : A -> M S B) (s : S) (e : exn) :
  fst (c s) = Raise e -> fst (bind c k s) = Raise e.
Proof. unfold bind. destruct (c s) as [[a|e'] s1]; simpl; congruence. Qed.

Lemma after_primary_client (node : string) (s : self) :
  client (after_primary is_ip node s) = client s.
Proof. reflexivity. Qed.

Lemma after_primary_answer (node : string) (s : self) (k : nat) :
  answer (after_primary is_ip node s) k = answer s (S k).
Proof. apply answer_add_query. Qed.

(** With a single row in the inventory, [get_node] is its second half
    run on the record filled from that row. *)
Lemma get_node_one_row (node : string) (s : self) (row id u ip c : value) :
  is_Some (client s) -> yields (answer s 0) [row] -> node_row row id u ip c ->
  get_node is_ip str node s =
    get_node_ncm str
      {| npm_id := id; uri := u; ip_address := ip; caption := c; ncm_id := VNone |}
      (after_primary is_ip node s).
Proof.
  intros Hc Hr Hrow. unfold get_node.
  now rewrite (bind_ok _ _ _ _ _ (get_node_npm_one_row node s row id u ip c Hc Hr Hrow)).
Qed.

(** C1: [get_node] by the number of rows of the inventory query.  On a
    connected action object: with zero rows it returns the record with
    every field unset and raises nothing; with exactly one row, every
    record it returns has [npm_id], [uri], [ip_address] and [caption]
    from that row, and it does return one when the NCM lookup is not
    made or is answered in a tolerated way; with two or more rows it
    raises the [ValueError] whose message quotes the identifier. *)
Theorem get_node_by_row_count (node : string) (s : self) :
  is_Some (client s) ->
  (yields (answer s 0) [] ->
     get_node is_ip str node s = (Ok OrionNode_new, after_primary is_ip node s)) /\
  (forall row id u ip c : value,
     yields (answer s 0) [row] -> node_row row id u ip c ->
     (forall n s', get_node is_ip str node s = (Ok n, s') ->
        npm_id n = id /\ uri n = u /\ ip_address n = ip /\ caption n = c) /\
     (id = VNone \/ tolerated (answer s 1) ->
        exists n s', get_node is_ip str node s = (Ok n, s'))) /\
  (forall (r1 r2 : value) (rest : list value),
     yields (answer s 0) (r1 :: r2 :: rest) ->
     fst (get_node is_ip str node s) =
       Raise (ValueError ("Muliple Nodes match '" +:+ node +:+ "' Caption"))).
Proof.
  intros Hc. split; [|split].
  - intros Hr. unfold get_node.
    rewrite (bind_ok _ _ _ _ _ (get_node_npm_zero_rows node s Hc Hr)).
    now apply get_node_ncm_unset.
  - intros row id u ip c Hr Hrow.
    rewrite (get_node_one_row node s row id u ip c Hc Hr Hrow).
    set (n1 := {| npm_id := id; uri := u; ip_address := ip; caption := c;
                  ncm_id := VNone |}).
    set (s1 := after_primary is_ip node s).
    assert (Hc1 : is_Some (client s1)) by exact Hc.
    split.
    + intros n s' H. apply get_node_ncm_fields in H. simpl in H. tauto.
    + intros Hok.
      assert (Hid : id = VNone \/ id <> VNone)
        by (destruct id; (now left) || (right; discriminate)).
      destruct Hid as [Hid|Hid].
      { exists n1, s1. now apply get_node_ncm_unset. }
      destruct Hok as [Hok|Hok]; [contradiction|].
      assert (Hans : answer s1 0 = answer s 1) by apply after_primary_answer.
      rewrite <- Hans in Hok.
      destruct Hok as [Hlack|(rows & Hrows & Hone)].
      * pose proof (get_node_ncm_lacks_results n1 s1 Hc1 Hid Hlack) as H.
        destruct (get_node_ncm str n1 s1) as [r s2]. simpl in H. subst r. eauto.
      * destruct rows as [|row2 [|row3 rows]].
        -- eexists _, _. now apply (get_node_ncm_other_rows n1 s1 [] Hc1 Hid Hrows).
        -- destruct (Hone row2 eq_refl) as [v Hv].
           eexists _, _. now apply (get_node_ncm_one_row n1 s1 row2 v Hc1 Hid Hrows).
        -- eexists _, _.
           now apply (get_node_ncm_other_rows n1 s1 (row2 :: row3 :: rows) Hc1 Hid Hrows).
  - intros r1 r2 rest Hr. unfold get_node. apply bind_fst_raise.
    now apply (get_node_npm_many_rows node s r1 r2 rest).
Qed.

(** C4: the field of the inventory query.  On a connected action
    object the first query [get_node] sends is the selection from
    [Orion.Nodes] with the identifier bound to [query_on]; its text
    filters by [WHERE IPAddress=@query_on] when [is_ip] accepts the
    identifier, and by [WHERE Caption=@query_on] when it does not. *)
Theorem get_node_lookup_field (node : string) (s : self) :
  is_Some (client s) ->
  (is_ip node = true ->
     exists later,
       queries (snd (get_node is_ip str node s)) =
         (queries s ++
          ("SELECT NodeID, Uri, IPAddress, Caption
        FROM Orion.Nodes
        WHERE IPAddress=@query_on",
           {[ "query_on" := VStr node ]}) :: later)%list) /\
  (is_ip node = false ->
     exists later,
       queries (snd (get_node is_ip str node s)) =
         (queries s ++
          ("SELECT NodeID, Uri, IPAddress, Caption
        FROM Orion.Nodes
        WHERE Caption=@query_on",
           {[ "query_on" := VStr node ]}) :: later)%list).
Proof.
  intros Hc.
  assert (H : exists later,
            queries (snd (get_node is_ip str node s)) =
              (queries s ++ primary_query is_ip node :: later)%list).
  { unfold get_node, bind.
    pose proof (get_node_npm_queries node s Hc) as Hq.
    destruct (get_node_npm is_ip str node s) as [[n|e] s1]; simpl in Hq.
    - destruct (get_node_ncm_queries n s1) as [H|[_ H]]; rewrite H, Hq.
      + now exists [].
      + exists [secondary_query n]. now rewrite <- app_assoc.
    - exists []. exact Hq. }
  unfold primary_query in H.
  split; intros Hip; rewrite Hip in H; exact H.
Qed.

(** C5: [ncm_id] needs [npm_id].  A record returned by [get_node] with
    [ncm_id] set has [npm_id] set, and the run has sent the inventory
    query alone, or the inventory query and then the NCM query for a
    record whose [npm_id] is set. *)
Theorem get_node_ncm_id_needs_npm_id (node : string) (s s' : self) (n : OrionNode) :
  get_node is_ip str node s = (Ok n, s') ->
  (ncm_id n <> VNone -> npm_id n <> VNone) /\
  (queries s' = (queries s ++ [primary_query is_ip node])%list \/
   (npm_id n <> VNone /\
    queries s' = (queries s ++ [primary_query is_ip node; secondary_query n])%list)).
Proof.
  intros H. unfold get_node in H.
  apply bind_inv in H as (n1 & s1 & H1 & H2).
  pose proof (get_node_npm_ncm_id node s s1 n1 H1) as Hncm.
  pose proof (get_node_ncm_fields n1 n s1 s' H2) as (Hid & _ & _ & _ & Hn).
  assert (Hc : is_Some (client s)).
  { destruct (client s) eqn:Hc; [eauto|].
    unfold get_node_npm, bind, query in H1. rewrite Hc in H1. discriminate. }
  pose proof (get_node_npm_queries node s Hc) as Hq1. rewrite H1 in Hq1. simpl in Hq1.
  pose proof (get_node_ncm_queries n1 s1) as Hq2. rewrite H2 in Hq2. simpl in Hq2.
  split.
  - intros Hset. rewrite Hid. destruct Hn as [Hn|Hn]; congruence.
  - destruct Hq2 as [Hq2|[Hset Hq2]]; rewrite Hq2, Hq1.
    + now left.
    + right. split; [congruence|].
      rewrite <- app_assoc. unfold secondary_query. now rewrite Hid.
Qed.

(** C9: a missing ['results'] entry.  On a connected action object, an
    answer to the inventory query without the entry makes [get_node]
    raise, while an answer to the NCM query without it is let pass: the
    record filled from the inventory row is returned with [ncm_id]
    unset. *)
Theorem get_node_missing_results (node : string) (s : self) :
  is_Some (client s) ->
  (forall m : gmap string value,
     answer s 0 = Ok (VDict m) -> m !! "results" = None ->
     fst (get_node is_ip str node s) =
       Raise (Exception ("No results from Orion: " +:+ str (VDict m)))) /\
  (forall row id u ip c : value,
     yields (answer s 0) [row] -> node_row row id u ip c -> id <> VNone ->
     lacks_results (answer s 1) ->
     fst (get_node is_ip str node s) =
       Ok {| npm_id := id; uri := u; ip_address := ip; caption := c; ncm_id := VNone |}).
Proof.
  intros Hc. split.
  - intros m Hr Hm. unfold get_node. apply bind_fst_raise.
    now apply get_node_npm_lacks_results.
  - intros row id u ip c Hr Hrow Hid Hlack.
    rewrite (get_node_one_row node s row id u ip c Hc Hr Hrow).
    apply get_node_ncm_lacks_results; [exact Hc|exact Hid|].
    now rewrite after_primary_answer.
Qed.

End NodeResolver.

(** ** The connection resolver *)

Section ConnectionResolver.

Variable str : value -> string.

(** A subscript by a string never raises [IndexError]. *)
Lemma getitem_str_not_IndexError (c : value) (k : string) :
  getitem c k <> Raise IndexError.
Proof. destruct c; simpl; try discriminate. now destruct (m !! k). Qed.

Lemma item_str_not_IndexError (r : result value) (k : string) :
  r <> Raise IndexError -> r@[k] <> Raise IndexError.
Proof.
  destruct r as [c|e]; simpl; [|tauto].
  intros _. apply getitem_str_not_IndexError.
Qed.

Lemma default_platform_not_IndexError (cfg : value) :
  (Ok cfg)@["defaults"]@["platform"] <> Raise IndexError.
Proof. apply item_str_not_IndexError, item_str_not_IndexError. discriminate. Qed.

(** Without a default platform under [defaults], [connect(None)] lets
    the [KeyError] of the subscript through. *)
Lemma connect_no_default (s : self) (cfg d : gmap string value) :
  config s = VDict cfg -> cfg !! "defaults" = Some (VDict d) ->
  d !! "platform" = None ->
  connect str VNone s = (Raise (KeyError "platform"), s).
Proof.
  intros Hcfg Hd Hp. unfold connect, bind, try_except. cbn [is_None].
  rewrite Hcfg, (item_key _ _ _ Hd), (item_key_missing _ _ Hp). reflexivity.
Qed.

Lemma bind_raise_inv {S A B} (c : M S A) (k : A -> M S B) (s : S) (e : exn) :
  fst (bind c k s) = Raise e ->
  fst (c s) = Raise e \/ exists a s1, c s = (Ok a, s1) /\ fst (k a s1) = Raise e.
Proof.
  unfold bind. destruct (c s) as [[a|e'] s1]; simpl; intros H.
  - right. now exists a, s1.
  - left. congruence.
Qed.

Lemma try_except_raise_inv {S A} (c h : M S A) (handles : exn -> bool) (s : S) (e : exn) :
  fst (try_except c handles h s) = Raise e ->
  (fst (c s) = Raise e /\ handles e = false) \/
  (exists e' s1, c s = (Raise e', s1) /\ handles e' = true /\ fst (h s1) = Raise e).
Proof.
  unfold try_except. destruct (c s) as [[a|e'] s1]; simpl.
  - discriminate.
  - destruct (handles e') eqn:He'; simpl; intros H.
    + right. now exists e', s1.
    + left. split; congruence.
Qed.

(** A subscript raises nothing but [KeyError], [TypeError] and
    [IndexError]. *)
Lemma getitem_raises (c k : value) (e : exn) :
  getitem c k = Raise e -> subscript_error e = true.
Proof.
  destruct c; simpl; try (intros [= <-]; reflexivity).
  - destruct (as_index k); [|intros [= <-]; reflexivity].
    destruct (norm_index _ _); [|intros [= <-]; reflexivity].
    destruct (String.get _ _); [discriminate|intros [= <-]; reflexivity].
  - destruct (as_index k); [|intros [= <-]; reflexivity].
    destruct (norm_index _ _); [|intros [= <-]; reflexivity].
    destruct (l !! _); [discriminate|intros [= <-]; reflexivity].
  - destruct k; try (intros [= <-]; reflexivity).
    destruct (m !! s); [discriminate|intros [= <-]; reflexivity].
Qed.

Lemma item_raises (r : result value) (k : value) (e : exn) :
  subscript_error e = false -> r <> Raise e -> r@[k] <> Raise e.
Proof.
  intros He Hr H. destruct r as [c|e']; simpl in H; [|contradiction].
  apply getitem_raises in H. congruence.
Qed.

Ltac not_subscript_error :=
  repeat (apply item_raises; [reflexivity|]); discriminate.

(** The handler of [connect] for a missing default is never entered:
    no configuration makes [connect(None)] raise its error. *)
Lemma connect_never_no_default_error (s : self) :
  fst (connect str VNone s) <> Raise (ValueError "No default Orion platform.").
Proof.
  intros H. unfold connect in H. cbn [is_None] in H.
  apply bind_raise_inv in H as [H|(platform & s1 & _ & H)].
  - apply try_except_raise_inv in H as [[H _]|(e' & s1 & H & He' & _)]; cbn [fst] in H.
    + revert H. not_subscript_error.
    + destruct e'; try discriminate.
      injection H as H _. now apply default_platform_not_IndexError in H.
  - apply bind_raise_inv in H as [H|(u & s2 & _ & H)]; [discriminate|].
    apply bind_raise_inv in H as [H|(u' & s3 & _ & H)]; [|discriminate].
    apply try_except_raise_inv in H as [[H _]|(e' & s3 & _ & _ & H)]; [|discriminate].
    apply bind_raise_inv in H as [H|(host & s3 & _ & H)].
    { revert H. unfold lift; cbn [fst]. not_subscript_error. }
    apply bind_raise_inv in H as [H|(user & s4 & _ & H)].
    { revert H. unfold lift; cbn [fst]. not_subscript_error. }
    apply bind_raise_inv in H as [H|(pass & s5 & _ & H)].
    { revert H. unfold lift; cbn [fst]. not_subscript_error. }
    discriminate.
Qed.

(** With a default platform that is configured, [connect(None)] takes
    it, stores the client handle and returns the name. *)
Lemma connect_default (s : self) (cfg d orion entry : gmap string value)
    (name : string) (host user pass : value) :
  config s = VDict cfg -> cfg !! "defaults" = Some (VDict d) ->
  d !! "platform" = Some (VStr name) ->
  cfg !! "orion" = Some (VDict orion) -> orion !! name = Some (VDict entry) ->
  entry !! "host" = Some host -> entry !! "user" = Some user ->
  entry !! "password" = Some pass ->
  connect str VNone s =
    (Ok (VStr name),
     set_client (Some {| hostname := host; username := user; password := pass |})
       (add_log DEBUG ("Connecting to Orion platform: " +:+ str (VStr name)) s)).
Proof.
  intros Hcfg Hd Hp Ho He Hh Hu Hpw.
  unfold connect, bind, try_except, lift, logger_debug, modify. cbn [is_None].
  rewrite Hcfg, (item_key _ _ _ Hd), (item_key _ _ _ Hp).
  cbn [config add_log].
  rewrite Hcfg, (item_key _ _ _ Ho), (item_key _ _ _ He).
  rewrite (item_key _ _ _ Hh), (item_key _ _ _ Hu), (item_key _ _ _ Hpw).
  reflexivity.
Qed.

(** The action object of the example below is what [__init__] builds
    from its configuration. *)
Lemma init_no_default :
  init no_default_config (scripted []) = Ok no_default_self.
Proof. reflexivity. Qed.

(** C2: [connect(None)] without a default platform.  Under the
    configuration [no_default_config], whose [defaults] entry names no
    platform, [connect(None)] does not raise the configuration error
    [ValueError("No default Orion platform.")] but lets the [KeyError]
    of the subscript through. *)
Theorem connect_None_without_default :
  connect str VNone no_default_self = (Raise (KeyError "platform"), no_default_self).
Proof. eapply connect_no_default; reflexivity. Qed.

End ConnectionResolver.

(** ** The credential resolver *)

Lemma get_snmp_community_state (community std_community : value) (s : self) :
  snd (get_snmp_community community std_community s) = s.
Proof.
  unfold get_snmp_community.
  destruct (is_None community); cbn [negb]; [|reflexivity].
  destruct (is_None std_community); cbn [negb]; [reflexivity|].
  unfold try_except.
  destruct ((Ok (config s))@["defaults"]@["snmp"]@[std_community]) as [v|e];
    [reflexivity|].
  now destruct (is_KeyError e).
Qed.

Lemma get_snmp_community_standard (name : string) (s : self) (snmp : gmap string value) :
  snmp_mapping s snmp ->
  get_snmp_community VNone name s =
    (match snmp !! name with
     | Some v => Ok v
     | None => Raise (ValueError "Invalid standard community")
     end, s).
Proof.
  intros (cfg & d & Hcfg & Hd & Hs).
  unfold get_snmp_community, try_except. cbn [is_None negb].
  rewrite Hcfg, (item_key _ _ _ Hd), (item_key _ _ _ Hs).
  destruct (snmp !! name) as [v|] eqn:Hn.
  - now rewrite (item_key _ _ _ Hn).
  - now rewrite (item_key_missing _ _ Hn).
Qed.

(** C6: the precedence of [get_snmp_community].  A community that is
    given is returned unchanged; without it, a standard name is looked
    up in the mapping of the configuration, and a name the mapping does
    not have raises the [ValueError] for an invalid standard community;
    with neither, the [ValueError] asking for one of the two is raised.
    The state is left as it was. *)
Theorem get_snmp_community_precedence (s : self) :
  (forall community std_community : value,
     community <> VNone ->
     get_snmp_community community std_community s = (Ok community, s)) /\
  (forall (name : string) (snmp : gmap string value),
     snmp_mapping s snmp ->
     (forall v, snmp !! name = Some v ->
        get_snmp_community VNone name s = (Ok v, s)) /\
     (snmp !! name = None ->
        get_snmp_community VNone name s =
          (Raise (ValueError "Invalid standard community"), s))) /\
  get_snmp_community VNone VNone s =
    (Raise (ValueError "Need one of community or std_community"), s).
Proof.
  split; [|split].
  - intros community std_community Hc. unfold get_snmp_community.
    destruct community; try reflexivity. contradiction.
  - intros name snmp Hmap.
    pose proof (get_snmp_community_standard name s snmp Hmap) as H.
    split.
    + intros v Hv. now rewrite Hv in H.
    + intros Hv. now rewrite Hv in H.
  - reflexivity.
Qed.

(** The name is resolved without touching the state. *)
Lemma get_snmp_cred_id_name (community name : value) (s : self) :
  resolved_name community s name ->
  try_except (get_snmp_community VNone community) is_ValueError (ret community) s =
    (Ok name, s).
Proof.
  unfold resolved_name, try_except.
  pose proof (get_snmp_community_state VNone community s) as Hs.
  destruct (get_snmp_community VNone community s) as [[v|e] s1]; simpl in *; subst s1.
  - intros [H|(msg & H & _)]; congruence.
  - intros [H|(msg & H & ->)]; [discriminate|].
    injection H as ->. reflexivity.
Qed.

(** C7: [get_snmp_cred_id].  On a connected action object, with
    [name] the community resolved as a standard name or, when that
    fails with a [ValueError], the input itself: the one query sent is
    the selection of [ID] from [Orion.Credential] by [CredentialType]
    and [Name], with the credential type of SNMP v2 and [name] bound
    to them; with exactly one row the [ID] of the row is returned, and
    with any other number of rows the [ValueError] of the failed lookup
    is raised. *)
Theorem get_snmp_cred_id_lookup (community name : value) (s : self) :
  is_Some (client s) -> resolved_name community s name ->
  queries (snd (get_snmp_cred_id community s)) =
    (queries s ++
       [("SELECT ID FROM Orion.Credential
        WHERE CredentialType=@CredentialType and Name=@name",
         {[ "CredentialType" := VStr "SolarWinds.Orion.Core.Models.Credentials.SnmpCredentialsV2";
            "name" := name ]})])%list /\
  (forall row id : value,
     yields (answer s 0) [row] -> column row "ID" id ->
     fst (get_snmp_cred_id community s) = Ok id) /\
  (forall rows : list value,
     yields (answer s 0) rows -> length rows <> 1 ->
     fst (get_snmp_cred_id community s) =
       Raise (ValueError "Failed to lookup community in Orion.Credential!")).
Proof.
  intros Hc Hname. unfold get_snmp_cred_id. cbv zeta.
  rewrite (bind_ok _ _ _ _ _ (get_snmp_cred_id_name community name s Hname)).
  unfold bind at 1 3 5. rewrite query_connected by assumption.
  split; [|split].
  - destruct (answer s 0) as [data|e]; [|reflexivity].
    match goal with
    | |- queries (snd (?k ?s1)) = _ =>
        assert (Hk : keeps queries k) by keeps_all; rewrite Hk
    end.
    reflexivity.
  - intros row id (m & Hr & Hm) Hid. rewrite Hr.
    unfold bind, lift. rewrite (item_key _ _ _ Hm). cbn [rbind len length Nat.eqb].
    change ((Ok (VList [row]))@[VInt 0]) with (Ok row).
    now rewrite (item_column _ _ _ Hid).
  - intros rows (m & Hr & Hm) Hlen. rewrite Hr.
    unfold bind, lift. rewrite (item_key _ _ _ Hm). cbn [rbind len].
    apply Nat.eqb_neq in Hlen. now rewrite Hlen.
Qed.

(** ** The transfer-status poller *)

Section Poller.

Variable transfer_id : value.
Variable sleep_delay : Z.

Lemma polled_client (s : self) : client (polled transfer_id sleep_delay s) = client s.
Proof. reflexivity. Qed.














End Poller.

(** ** The get_node_id action *)

Section GetNodeIdAction.

Variable str : value -> string.

(** When the query raises, the handler reads [orion_data] before any
    assignment to it. *)
Lemma run_query_failed (swql : string) (s : self) (e : exn) :
  fst (query swql ∅ s) = Raise e ->
  fst (GetNodeId.run_query swql s) = Raise (UnboundLocalError "orion_data").
Proof.
  intros H. unfold GetNodeId.run_query. cbv zeta.
  unfold bind at 1, try_except, bind at 1.
  destruct (query swql ∅ s) as [[data|e'] s1]; simpl in H; [discriminate|].
  reflexivity.
Qed.

(** When the query answers, its answer is returned as it is. *)
Lemma run_query_answered (swql : string) (s : self) (data : value) :
  fst (query swql ∅ s) = Ok data ->
  fst (GetNodeId.run_query swql s) = Ok data.
Proof.
  intros H. unfold GetNodeId.run_query. cbv zeta.
  unfold bind at 1, try_except, bind at 1.
  destruct (query swql ∅ s) as [[data'|e'] s1]; simpl in H; [|discriminate].
  injection H as ->. reflexivity.
Qed.

(** C8: the handler around the query of [GetNodeId.run].  When the
    query raises, the [try] block with its bare [except] does not
    produce a mapping: it raises [UnboundLocalError] for [orion_data],
    whatever the error of the query was.  And [run] as a whole returns
    no mapping in any state, for any arguments. *)
Theorem run_query_failure_gives_no_mapping (matchtype matchstring : value) (s : self) :
  (forall (swql : string) (e : exn),
     fst (query swql ∅ s) = Raise e ->
     fst (GetNodeId.run_query swql s) = Raise (UnboundLocalError "orion_data")) /\
  (forall data : value, fst (GetNodeId.run str matchtype matchstring s) <> Ok data).
Proof.
  split.
  - intros swql e. apply run_query_failed.
  - intros data. unfold GetNodeId.run, connect_call, bind, raise. simpl. discriminate.
Qed.

End GetNodeIdAction.

(** ** The theorems at work on examples *)

Lemma example_row_columns :
  node_row example_row (VInt 42) (VStr "swis://orion.lab/Orion/Orion.Nodes/NodeID=42")
    (VStr "10.0.0.7") (VStr "core-sw1").
Proof. repeat split; eexists; (split; [reflexivity|reflexivity]). Defined.

Lemma example_connected (answers : list (result value)) :
  is_Some (client (example_self answers)).
Proof. eexists. reflexivity. Defined.

Lemma example_yields (rows : list value) (rest : list (result value)) :
  yields (answer (example_self (results rows :: rest)) 0) rows.
Proof. eexists. split; reflexivity. Defined.

(** No row, one row and two rows for the name [core-sw1]. *)
Lemma get_node_by_row_count_witness :
  fst (get_node example_is_ip example_str "core-sw1" (example_self [results []])) =
    Ok OrionNode_new /\
  (forall n s',
     get_node example_is_ip example_str "core-sw1"
       (example_self [results [example_row]; results []]) = (Ok n, s') ->
     npm_id n = VInt 42 /\
     uri n = VStr "swis://orion.lab/Orion/Orion.Nodes/NodeID=42" /\
     ip_address n = VStr "10.0.0.7" /\ caption n = VStr "core-sw1") /\
  (exists n s',
     get_node example_is_ip example_str "core-sw1"
       (example_self [results [example_row]; results []]) = (Ok n, s')) /\
  fst (get_node example_is_ip example_str "core-sw1"
         (example_self [results [example_row; example_row]])) =
    Raise (ValueError "Muliple Nodes match 'core-sw1' Caption").
Proof.
  split; [|split; [|split]].
  - destruct (get_node_by_row_count example_is_ip example_str "core-sw1"
                (example_self [results []]) (example_connected _)) as (H & _ & _).
    rewrite (H (example_yields _ _)). reflexivity.
  - destruct (get_node_by_row_count example_is_ip example_str "core-sw1"
                (example_self [results [example_row]; results []])
                (example_connected _)) as (_ & H & _).
    exact (proj1 (H _ _ _ _ _ (example_yields _ _) example_row_columns)).
  - destruct (get_node_by_row_count example_is_ip example_str "core-sw1"
                (example_self [results [example_row]; results []])
                (example_connected _)) as (_ & H & _).
    apply (proj2 (H _ _ _ _ _ (example_yields _ _) example_row_columns)).
    right. right. exists []. split; [eexists; split; reflexivity|].
    intros row Hrow. discriminate Hrow.
  - destruct (get_node_by_row_count example_is_ip example_str "core-sw1"
                (example_self [results [example_row; example_row]])
                (example_connected _)) as (_ & _ & H).
    exact (H _ _ _ (example_yields _ _)).
Defined.

(** The address [10.0.0.7] is looked up by [IPAddress], the name
    [core-sw1] by [Caption]. *)
Lemma get_node_lookup_field_witness :
  (exists later,
     queries (snd (get_node example_is_ip example_str "10.0.0.7" (example_self []))) =
       ("SELECT NodeID, Uri, IPAddress, Caption
        FROM Orion.Nodes
        WHERE IPAddress=@query_on",
        {[ "query_on" := VStr "10.0.0.7" ]}) :: later) /\
  (exists later,
     queries (snd (get_node example_is_ip example_str "core-sw1" (example_self []))) =
       ("SELECT NodeID, Uri, IPAddress, Caption
        FROM Orion.Nodes
        WHERE Caption=@query_on",
        {[ "query_on" := VStr "core-sw1" ]}) :: later).
Proof.
  split.
  - exact (proj1 (get_node_lookup_field example_is_ip example_str "10.0.0.7"
                    (example_self []) (example_connected _)) eq_refl).
  - exact (proj2 (get_node_lookup_field example_is_ip example_str "core-sw1"
                    (example_self []) (example_connected _)) eq_refl).
Defined.

Lemma example_get_node :
  get_node example_is_ip example_str "core-sw1"
    (example_self [results [example_row]; results [example_ncm_row]]) =
  (Ok example_node,
   snd (get_node example_is_ip example_str "core-sw1"
          (example_self [results [example_row]; results [example_ncm_row]]))).
Proof. reflexivity. Defined.

(** A node known to NCM: both identifiers are set, two queries sent. *)
Lemma get_node_ncm_id_needs_npm_id_witness :
  (ncm_id example_node <> VNone -> npm_id example_node <> VNone) /\
  (queries (snd (get_node example_is_ip example_str "core-sw1"
                   (example_self [results [example_row]; results [example_ncm_row]]))) =
     [primary_query example_is_ip "core-sw1"] \/
   (npm_id example_node <> VNone /\
    queries (snd (get_node example_is_ip example_str "core-sw1"
                    (example_self [results [example_row]; results [example_ncm_row]]))) =
      [primary_query example_is_ip "core-sw1"; secondary_query example_node])).
Proof.
  exact (get_node_ncm_id_needs_npm_id example_is_ip example_str "core-sw1" _ _ _
           example_get_node).
Defined.



Lemma example_snmp_mapping (answers : list (result value)) :
  snmp_mapping (example_self answers) {[ "ro" := VStr "public" ]}.
Proof. eexists. eexists. repeat split; reflexivity. Defined.

(** [get_snmp_community("public", None)], [(None, "ro")], [(None, "rw")]
    and [(None, None)] under the example configuration. *)
Lemma get_snmp_community_precedence_witness :
  fst (get_snmp_community (VStr "public") VNone (example_self [])) = Ok (VStr "public") /\
  fst (get_snmp_community VNone (VStr "ro") (example_self [])) = Ok (VStr "public") /\
  fst (get_snmp_community VNone (VStr "rw") (example_self [])) =
    Raise (ValueError "Invalid standard community") /\
  fst (get_snmp_community VNone VNone (example_self [])) =
    Raise (ValueError "Need one of community or std_community").
Proof.
  destruct (get_snmp_community_precedence (example_self [])) as (H1 & H2 & H3).
  destruct (H2 "ro" _ (example_snmp_mapping [])) as [Hro _].
  destruct (H2 "rw" _ (example_snmp_mapping [])) as [_ Hrw].
  split; [|split; [|split]].
  - rewrite (H1 (VStr "public") VNone); [reflexivity|discriminate].
  - rewrite (Hro (VStr "public")); reflexivity.
  - rewrite Hrw; reflexivity.
  - rewrite H3. reflexivity.
Defined.

(** The standard name [ro] is looked up as [public]; an unknown name is
    looked up as it is. *)
Lemma get_snmp_cred_id_lookup_witness :
  fst (get_snmp_cred_id (VStr "ro") (example_self [results [VDict {[ "ID" := VInt 3 ]}]])) =
    Ok (VInt 3) /\
  queries (snd (get_snmp_cred_id (VStr "ro")
                  (example_self [results [VDict {[ "ID" := VInt 3 ]}]]))) =
    [("SELECT ID FROM Orion.Credential
        WHERE CredentialType=@CredentialType and Name=@name",
      {[ "CredentialType" := VStr "SolarWinds.Orion.Core.Models.Credentials.SnmpCredentialsV2";
         "name" := VStr "public" ]})] /\
  fst (get_snmp_cred_id (VStr "s3cr3t") (example_self [results []])) =
    Raise (ValueError "Failed to lookup community in Orion.Credential!") /\
  queries (snd (get_snmp_cred_id (VStr "s3cr3t") (example_self [results []]))) =
    [("SELECT ID FROM Orion.Credential
        WHERE CredentialType=@CredentialType and Name=@name",
      {[ "CredentialType" := VStr "SolarWinds.Orion.Core.Models.Credentials.SnmpCredentialsV2";
         "name" := VStr "s3cr3t" ]})].
Proof.
  destruct (get_snmp_cred_id_lookup (VStr "ro") (VStr "public")
              (example_self [results [VDict {[ "ID" := VInt 3 ]}]])
              (example_connected _) (or_introl eq_refl)) as (Hq1 & H1 & _).
  destruct (get_snmp_cred_id_lookup (VStr "s3cr3t") (VStr "s3cr3t")
              (example_self [results []])
              (example_connected _)
              (or_intror (ex_intro _ "Invalid standard community" (conj eq_refl eq_refl))))
    as (Hq2 & _ & H2).
  split; [|split; [|split]].
  - apply (H1 _ _ (example_yields _ _)). eexists. split; reflexivity.
  - exact Hq1.
  - apply (H2 _ (example_yields _ _)). discriminate.
  - exact Hq2.
Defined.

(** A platform that cannot be reached. *)
Lemma run_query_failure_gives_no_mapping_witness :
  fst (GetNodeId.run_query "SELECT nodeid, sysname, caption FROM Orion.Nodes"
         (example_self [Raise (TransportError "connection refused")])) =
    Raise (UnboundLocalError "orion_data") /\
  (forall data : value,
     fst (GetNodeId.run example_str VNone VNone
            (example_self [Raise (TransportError "connection refused")])) <> Ok data).
Proof.
  destruct (run_query_failure_gives_no_mapping example_str VNone VNone
              (example_self [Raise (TransportError "connection refused")])) as (H1 & H2).
  split.
  - exact (H1 _ (TransportError "connection refused") eq_refl).
  - exact H2.
Defined.

(** An inventory answer without ['results'], and an NCM answer without
    it after a single inventory row. *)
Lemma get_node_missing_results_witness :
  fst (get_node example_is_ip example_str "core-sw1" (example_self [Ok (VDict ∅)])) =
    Raise (Exception ("No results from Orion: " +:+ example_str (VDict ∅))) /\
  fst (get_node example_is_ip example_str "core-sw1"
         (example_self [results [example_row]; Ok (VDict ∅)])) =
    Ok {| npm_id := VInt 42; uri := VStr "swis://orion.lab/Orion/Orion.Nodes/NodeID=42";
          ip_address := VStr "10.0.0.7"; caption := VStr "core-sw1"; ncm_id := VNone |}.
Proof.
  split.
  - exact (proj1 (get_node_missing_results example_is_ip example_str "core-sw1"
                    (example_self [Ok (VDict ∅)]) (example_connected _))
             ∅ eq_refl eq_refl).
  - apply (proj2 (get_node_missing_results example_is_ip example_str "core-sw1"
                    (example_self [results [example_row]; Ok (VDict ∅)])
                    (example_connected _))
             example_row _ _ _ _ (example_yields _ _) example_row_columns).
    + discriminate.
    + eexists. split; reflexivity.
Defined.

(** * Further properties *)

(** ** More of the monad *)

Lemma try_except_ok_inv {S A} (c h : M S A) (handles : exn -> bool) (s s' : S) (a : A) :
  try_except c handles h s = (Ok a, s') ->
  c s = (Ok a, s') \/
  (exists e s1, c s = (Raise e, s1) /\ handles e = true /\ h s1 = (Ok a, s')).
Proof.
  unfold try_except. destruct (c s) as [[a'|e] s1]; intros H.
  - now left.
  - destruct (handles e) eqn:He; [|discriminate].
    right. now exists e, s1.
Qed.

Lemma keeps_query {B} (f : self -> B) (swql : string) (kargs : gmap string value) :
  (forall s, f (add_query swql kargs s) = f s) -> keeps f (query swql kargs).
Proof. intros H s. unfold query. destruct (client s); [apply H|reflexivity]. Qed.

Lemma query_unconnected (s : self) (swql : string) (kargs : gmap string value) :
  client s = None -> query swql kargs s = (Raise AttributeError, s).
Proof. intros H. unfold query. now rewrite H. Qed.

(** ** The connection resolver, continued *)

Section ConnectionResolverMore.

Variable str : value -> string.

(** X1: what a successful [connect] has done.  When [connect] returns
    a name, it is the platform asked for or, for [None], the default of
    the configuration; the client handle now holds the host, user and
    password the configuration gives for that name; the configuration
    is as before and no query was sent. *)
Theorem connect_stores_configured_handle (platform p : value) (s s' : self) :
  connect str platform s = (Ok p, s') ->
  (platform <> VNone -> p = platform) /\
  (platform = VNone -> (Ok (config s))@["defaults"]@["platform"] = Ok p) /\
  (exists h u pw : value,
     client s' = Some {| hostname := h; username := u; password := pw |} /\
     (Ok (config s))@["orion"]@[p]@["host"] = Ok h /\
     (Ok (config s))@["orion"]@[p]@["user"] = Ok u /\
     (Ok (config s))@["orion"]@[p]@["password"] = Ok pw) /\
  config s' = config s /\ queries s' = queries s.
Proof.
  unfold connect. intros H.
  apply bind_inv in H as (p0 & s1 & H1 & H).
  apply bind_inv in H as (u0 & s2 & H2 & H).
  apply bind_inv in H as (u1 & s3 & H3 & H).
  injection H as <- <-.
  injection H2 as _ <-.
  assert (Hp : (platform <> VNone -> p0 = platform) /\
               (platform = VNone -> (Ok (config s))@["defaults"]@["platform"] = Ok p0) /\
               s1 = s).
  { destruct platform; cbn [is_None] in H1;
      try (injection H1 as <- <-; repeat split; congruence).
    apply try_except_ok_inv in H1 as [H1|(e & s0 & _ & _ & H1)].
    - injection H1 as H1 <-.
      split; [congruence|split; [intros _; exact H1|reflexivity]].
    - apply bind_inv in H1 as (? & ? & _ & H1). discriminate. }
  destruct Hp as (Hp1 & Hp2 & ->).
  apply try_except_ok_inv in H3 as [H3|(e & s0 & _ & _ & H3)]; [|discriminate].
  apply bind_inv in H3 as (h & t1 & Hh & H3).
  apply bind_inv in H3 as (u & t2 & Hu & H3).
  apply bind_inv in H3 as (pw & t3 & Hpw & H3).
  injection Hh as Hh <-. injection Hu as Hu <-. injection Hpw as Hpw <-.
  injection H3 as _ <-.
  repeat split; try assumption.
  exists h, u, pw. repeat split; assumption.
Qed.

(** X2: a platform without its details.  When the configuration has
    no [orion] entry, no entry for the platform under [orion], or an
    entry without [host], [user] or [password], [connect] raises the
    [ValueError] for missing host details and leaves the client handle
    as it was. *)
Theorem connect_unconfigured_platform (name : string) (s : self) :
  unconfigured (config s) name ->
  fst (connect str (VStr name) s) =
    Raise (ValueError "Orion host details not in the config.yaml") /\
  client (snd (connect str (VStr name) s)) = client s.
Proof.
  intros (m & Hcfg & Hm).
  unfold connect, bind, try_except, lift, logger_debug, modify, raise. cbn [is_None ret].
  cbn [config add_log]. rewrite Hcfg.
  destruct Hm as [Ho|(orion & Ho & Hn)].
  { rewrite (item_key_missing _ _ Ho). now split. }
  rewrite (item_key _ _ _ Ho).
  destruct Hn as [Hn|(entry & Hn & He)].
  { rewrite (item_key_missing _ _ Hn). now split. }
  rewrite (item_key _ _ _ Hn).
  destruct (entry !! "host") as [h|] eqn:Hh.
  2:{ rewrite (item_key_missing _ _ Hh). now split. }
  rewrite (item_key _ _ _ Hh).
  destruct (entry !! "user") as [u|] eqn:Hu.
  2:{ rewrite (item_key_missing _ _ Hu). now split. }
  rewrite (item_key _ _ _ Hu).
  destruct (entry !! "password") as [pw|] eqn:Hpw.
  2:{ rewrite (item_key_missing _ _ Hpw). now split. }
  destruct He as [He|[He|He]]; discriminate.
Qed.

(** X3: a failed [connect].  Whatever the platform argument and the
    configuration, a [connect] that raises leaves the client handle and
    the configuration as they were and has sent no query. *)
Theorem connect_failure_keeps_client (platform : value) (s : self) (e : exn) :
  fst (connect str platform s) = Raise e ->
  client (snd (connect str platform s)) = client s /\
  config (snd (connect str platform s)) = config s /\
  queries (snd (connect str platform s)) = queries s.
Proof.
  unfold connect, bind, try_except, lift, logger_debug, modify, raise, send_user_error, ret.
  destruct (is_None platform).
  - destruct ((Ok (config s))@["defaults"]@["platform"]) as [p|e0].
    + cbn [config add_log].
      destruct ((Ok (config s))@["orion"]@[p]@["host"]) as [h|e1];
        [|destruct (is_KeyError e1); now intros _].
      destruct ((Ok (config s))@["orion"]@[p]@["user"]) as [u|e1];
        [|destruct (is_KeyError e1); now intros _].
      destruct ((Ok (config s))@["orion"]@[p]@["password"]) as [pw|e1];
        [|destruct (is_KeyError e1); now intros _].
      discriminate.
    + destruct (is_IndexError e0); now intros _.
  - cbn [config add_log].
    destruct ((Ok (config s))@["orion"]@[platform]@["host"]) as [h|e1];
      [|destruct (is_KeyError e1); now intros _].
    destruct ((Ok (config s))@["orion"]@[platform]@["user"]) as [u|e1];
      [|destruct (is_KeyError e1); now intros _].
    destruct ((Ok (config s))@["orion"]@[platform]@["password"]) as [pw|e1];
      [|destruct (is_KeyError e1); now intros _].
    discriminate.
Qed.

End ConnectionResolverMore.

(** ** The poller resolver *)

Lemma eq_str_false (v : value) (s : string) : v <> VStr s -> eq_str v s = false.
Proof.
  intros H. destruct v; try reflexivity. simpl.
  apply String.eqb_neq. congruence.
Qed.

(** X4: [get_engine_id].  The name [primary] gives the engine [1] in
    any state, connected or not, and sends nothing.  For another name
    on a connected action object, the one query sent is the selection
    from [Orion.Engines] by [ServerName], with the name bound to
    [poller]; with exactly one row its [EngineID] is
    returned, and with any other number of rows the user is told of
    the invalid poller name and the [ValueError] is raised. *)
Theorem get_engine_id_lookup (poller : value) (s : self) :
  get_engine_id (VStr "primary") s = (Ok (VInt 1), s) /\
  (poller <> VStr "primary" -> is_Some (client s) ->
   queries (snd (get_engine_id poller s)) =
     (queries s ++
      [("SELECT EngineID, ServerName, IP, ServerType
            FROM Orion.Engines
            WHERE ServerName=@poller",
        {[ "poller" := poller ]})])%list /\
   (forall row id : value,
      yields (answer s 0) [row] -> column row "EngineID" id ->
      fst (get_engine_id poller s) = Ok id) /\
   (forall rows : list value,
      yields (answer s 0) rows -> length rows <> 1 ->
      fst (get_engine_id poller s) = Raise (ValueError "Invalid poller name") /\
      user_errors (snd (get_engine_id poller s)) =
        (user_errors s ++ ["Invalid poller name"])%list)).
Proof.
  split; [reflexivity|].
  intros Hp Hc. unfold get_engine_id. rewrite (eq_str_false _ _ Hp). cbv zeta.
  split; [|split].
  - unfold bind at 1. rewrite query_connected by assumption.
    destruct (answer s 0) as [data|e]; [|reflexivity].
    match goal with
    | |- queries (snd (?k ?s1)) = _ =>
        assert (Hk : keeps queries k) by (keeps_all; unfold send_user_error; keeps_all);
        rewrite Hk
    end.
    reflexivity.
  - intros row id (m & Hr & Hm) Hid.
    unfold bind, lift. rewrite query_connected, Hr by assumption.
    rewrite (item_key _ _ _ Hm). cbn [rbind len length Nat.eqb].
    change ((Ok (VList [row]))@[VInt 0]) with (Ok row).
    now rewrite (item_column _ _ _ Hid).
  - intros rows (m & Hr & Hm) Hlen.
    unfold bind, lift. rewrite query_connected, Hr by assumption.
    rewrite (item_key _ _ _ Hm). cbn [rbind len].
    apply Nat.eqb_neq in Hlen. rewrite Hlen. now split.
Qed.

(** ** The node resolver, continued *)

Section NodeResolverMore.

Variable is_ip : string -> bool.
Variable str : value -> string.

(** X5: a row without one of its columns.  On a connected action
    object, when the single row of the inventory is a mapping that
    lacks some of the four selected columns, [get_node] raises the
    [KeyError] of the first column that is missing, in the order
    [NodeID], [Uri], [IPAddress], [Caption]: the handler for
    [IndexError] does not catch it. *)
Theorem get_node_missing_column (node : string) (s : self) (r : gmap string value)
    (col : string) :
  is_Some (client s) -> yields (answer s 0) [VDict r] ->
  first_missing ["NodeID"; "Uri"; "IPAddress"; "Caption"] r = Some col ->
  fst (get_node is_ip str node s) = Raise (KeyError (VStr col)).
Proof.
  intros Hc (m & Hr & Hm) Hcol.
  unfold get_node. apply bind_fst_raise.
  unfold get_node_npm. cbv zeta. unfold bind at 1.
  rewrite query_connected, Hr by assumption.
  unfold bind at 1, lift at 1. cbn [contains]. rewrite Hm. cbn [negb].
  unfold bind at 1, lift at 1. rewrite (item_key _ _ _ Hm).
  cbn [rbind len length Nat.eqb].
  unfold with_node, try_except, assign, bind, lift, modify.
  change ((Ok (VList [VDict r]))@[VInt 0]) with (Ok (VDict r)).
  unfold first_missing in Hcol.
  destruct (r !! "NodeID") as [v1|] eqn:H1.
  2:{ injection Hcol as <-. now rewrite (item_key_missing _ _ H1). }
  rewrite (item_key _ _ _ H1).
  destruct (r !! "Uri") as [v2|] eqn:H2.
  2:{ injection Hcol as <-. now rewrite (item_key_missing _ _ H2). }
  rewrite (item_key _ _ _ H2).
  destruct (r !! "IPAddress") as [v3|] eqn:H3.
  2:{ injection Hcol as <-. now rewrite (item_key_missing _ _ H3). }
  rewrite (item_key _ _ _ H3).
  destruct (r !! "Caption") as [v4|] eqn:H4.
  2:{ injection Hcol as <-. now rewrite (item_key_missing _ _ H4). }
  discriminate.
Qed.

(** X7: the rows of NCM.  On a connected action object and after a
    single inventory row whose [NodeID] is set: an NCM answer with no
    row or with several rows gives the record with [ncm_id] unset and
    raises nothing, and an NCM answer with a single row gives the
    record with [ncm_id] from the [NodeID] of that row. *)
Theorem get_node_ncm_rows (node : string) (s : self) (row id u ip c : value) :
  is_Some (client s) -> yields (answer s 0) [row] -> node_row row id u ip c ->
  id <> VNone ->
  (forall rows : list value,
     yields (answer s 1) rows -> length rows <> 1 ->
     fst (get_node is_ip str node s) =
       Ok {| npm_id := id; uri := u; ip_address := ip; caption := c; ncm_id := VNone |}) /\
  (forall row2 v : value,
     yields (answer s 1) [row2] -> column row2 "NodeID" v ->
     fst (get_node is_ip str node s) =
       Ok {| npm_id := id; uri := u; ip_address := ip; caption := c; ncm_id := v |}).
Proof.
  intros Hc Hr Hrow Hid.
  rewrite (get_node_one_row is_ip str node s row id u ip c Hc Hr Hrow).
  set (n1 := {| npm_id := id; uri := u; ip_address := ip; caption := c;
                ncm_id := VNone |}).
  assert (Hid1 : npm_id n1 <> VNone) by exact Hid.
  split.
  - intros rows Hrows Hlen. rewrite <- (after_primary_answer is_ip node s 0) in Hrows.
    now rewrite (get_node_ncm_other_rows str n1 (after_primary is_ip node s) rows Hc Hid1 Hrows Hlen).
  - intros row2 v Hrows Hv. rewrite <- (after_primary_answer is_ip node s 0) in Hrows.
    now rewrite (get_node_ncm_one_row str n1 (after_primary is_ip node s) row2 v Hc Hid1 Hrows Hv).
Qed.

(** X8: errors of the query client.  On a connected action object, an
    exception raised by the client on the inventory query leaves
    [get_node] unchanged, with that one query sent; and so does an
    exception raised on the NCM query after a single inventory row
    whose [NodeID] is set: only a missing ['results'] entry is let
    pass there. *)
Theorem get_node_client_error (node : string) (s : self) (e : exn) :
  is_Some (client s) ->
  (answer s 0 = Raise e ->
     get_node is_ip str node s = (Raise e, after_primary is_ip node s)) /\
  (forall row id u ip c : value,
     yields (answer s 0) [row] -> node_row row id u ip c -> id <> VNone ->
     answer s 1 = Raise e ->
     fst (get_node is_ip str node s) = Raise e).
Proof.
  intros Hc. split.
  - intros Hr. unfold get_node, get_node_npm, bind.
    rewrite query_connected, Hr by assumption. reflexivity.
  - intros row id u ip c Hr Hrow Hid He.
    rewrite (get_node_one_row is_ip str node s row id u ip c Hc Hr Hrow).
    set (n1 := {| npm_id := id; uri := u; ip_address := ip; caption := c;
                  ncm_id := VNone |}).
    assert (Hid1 : npm n1 = true) by now apply npm_set.
    unfold get_node_ncm. rewrite Hid1. cbv zeta. unfold bind at 1. rewrite query_connected by exact Hc.
    now rewrite after_primary_answer, He.
Qed.

End NodeResolverMore.

(** ** Returned records are never half filled *)

Lemma query_ok_inv (s s' : self) (swql : string) (kargs : gmap string value) (d : value) :
  query swql kargs s = (Ok d, s') ->
  is_Some (client s) /\ answer s 0 = Ok d /\ s' = add_query swql kargs s.
Proof.
  unfold query, answer. destruct (client s) as [h|]; [|discriminate].
  intros H. injection H as H <-. eauto.
Qed.

Lemma lift_ok_inv {S A} (r : result A) (s s' : S) (a : A) :
  lift r s = (Ok a, s') -> r = Ok a /\ s' = s.
Proof. unfold lift. intros H. injection H as -> <-. now split. Qed.

(** The first row of a container of length one is there, and a column
    of it is not out of range. *)
Lemma first_item_not_IndexError (data : value) (col : string) :
  rbind (Ok data)@["results"] len = Ok 1 ->
  (Ok data)@["results"]@[VInt 0]@[col] <> Raise IndexError.
Proof.
  destruct ((Ok data)@["results"]) as [rs|e]; [|discriminate].
  destruct rs as [| | |t|l|m]; try discriminate; cbn [rbind len]; intros Hlen.
  - destruct t as [|a [|b t]]; discriminate.
  - destruct l as [|x [|y l]]; try discriminate.
    change ((Ok (VList [x]))@[VInt 0]) with (Ok x).
    apply getitem_str_not_IndexError.
Qed.

Section NodeRecord.

Variable is_ip : string -> bool.
Variable str : value -> string.

Lemma get_node_npm_record (node : string) (s s1 : self) (n1 : OrionNode) :
  get_node_npm is_ip str node s = (Ok n1, s1) ->
  exists data : value, answer s 0 = Ok data /\
    ((rbind (Ok data)@["results"] len = Ok 0 /\ n1 = OrionNode_new) \/
     (rbind (Ok data)@["results"] len = Ok 1 /\
      exists id u ip c : value,
        (Ok data)@["results"]@[VInt 0]@["NodeID"] = Ok id /\
        (Ok data)@["results"]@[VInt 0]@["Uri"] = Ok u /\
        (Ok data)@["results"]@[VInt 0]@["IPAddress"] = Ok ip /\
        (Ok data)@["results"]@[VInt 0]@["Caption"] = Ok c /\
        n1 = {| npm_id := id; uri := u; ip_address := ip; caption := c;
                ncm_id := VNone |})).
Proof.
  unfold get_node_npm. cbv zeta. intros H.
  apply bind_inv in H as (data & s2 & Hq & H).
  apply query_ok_inv in Hq as (_ & Hans & _).
  exists data. split; [exact Hans|].
  apply bind_inv in H as (has & s3 & _ & H).
  destruct has; cbn [negb] in H.
  2:{ apply bind_inv in H as (? & ? & _ & H). discriminate. }
  apply bind_inv in H as (k & s4 & Hlen & H).
  apply lift_ok_inv in Hlen as [Hlen _].
  destruct (k =? 1)%nat eqn:Hk.
  - apply Nat.eqb_eq in Hk. subst k. right. split; [exact Hlen|].
    pose proof (first_item_not_IndexError data "NodeID" Hlen) as N1.
    pose proof (first_item_not_IndexError data "Uri" Hlen) as N2.
    pose proof (first_item_not_IndexError data "IPAddress" Hlen) as N3.
    pose proof (first_item_not_IndexError data "Caption" Hlen) as N4.
    unfold with_node, try_except, assign, bind, lift, modify, ret in H.
    destruct ((Ok data)@["results"]@[VInt 0]@["NodeID"]) as [id|e];
      [|destruct e; try discriminate; now contradiction N1].
    destruct ((Ok data)@["results"]@[VInt 0]@["Uri"]) as [u|e];
      [|destruct e; try discriminate; now contradiction N2].
    destruct ((Ok data)@["results"]@[VInt 0]@["IPAddress"]) as [ip|e];
      [|destruct e; try discriminate; now contradiction N3].
    destruct ((Ok data)@["results"]@[VInt 0]@["Caption"]) as [c|e];
      [|destruct e; try discriminate; now contradiction N4].
    injection H as <- _. exists id, u, ip, c. now repeat split.
  - apply Nat.eqb_neq in Hk.
    apply bind_inv in H as (k' & s5 & Hlen' & H).
    apply lift_ok_inv in Hlen' as [Hlen' _].
    assert (k' = k) by congruence. subst k'.
    destruct (2 <=? k)%nat eqn:Hk2.
    + apply bind_inv in H as (? & ? & _ & H). discriminate.
    + apply Nat.leb_gt in Hk2. injection H as <- _.
      left. split; [|reflexivity]. rewrite Hlen. f_equal. lia.
Qed.

(** X6: no half-filled record.  Whatever the platform answers, a
    record that [get_node] returns is the record with every field
    unset, when [len(data['results'])] is [0] for the inventory answer
    [data], or has all of [npm_id], [uri], [ip_address] and [caption]
    from the first row of [data], when that length is [1]: the handlers
    for [IndexError] never leave a record with only some of the four
    fields. *)
Theorem get_node_record_complete (node : string) (s s' : self) (n : OrionNode) :
  get_node is_ip str node s = (Ok n, s') ->
  exists data : value, answer s 0 = Ok data /\
    ((rbind (Ok data)@["results"] len = Ok 0 /\ n = OrionNode_new) \/
     (rbind (Ok data)@["results"] len = Ok 1 /\
      (Ok data)@["results"]@[VInt 0]@["NodeID"] = Ok (npm_id n) /\
      (Ok data)@["results"]@[VInt 0]@["Uri"] = Ok (uri n) /\
      (Ok data)@["results"]@[VInt 0]@["IPAddress"] = Ok (ip_address n) /\
      (Ok data)@["results"]@[VInt 0]@["Caption"] = Ok (caption n))).
Proof.
  unfold get_node. intros H.
  apply bind_inv in H as (n1 & s1 & H1 & H2).
  apply get_node_npm_record in H1 as (data & Hans & Hn1).
  exists data. split; [exact Hans|].
  destruct Hn1 as [[Hlen ->]|(Hlen & id & u & ip & c & Hid & Hu & Hip & Hc & ->)].
  - left. split; [exact Hlen|].
    rewrite get_node_ncm_unset in H2 by reflexivity. now injection H2 as <- _.
  - right. split; [exact Hlen|].
    apply (get_node_ncm_fields is_ip) in H2 as (E1 & E2 & E3 & E4 & _).
    cbn in E1, E2, E3, E4.
    now rewrite E1, E2, E3, E4.
Qed.

End NodeRecord.

(** ** Before [connect], and answers without ['results'] *)

Lemma init_inv (cfg : value) (platform : nat -> result value) (s : self) :
  init cfg platform = Ok s ->
  config s = cfg /\ client s = None /\ responses s = platform /\ queries s = [].
Proof.
  unfold init. destruct (contains "orion" cfg) as [has|e]; [|discriminate].
  cbn [rbind]. destruct has; cbn [negb]; [|discriminate].
  intros H. injection H as <-. now repeat split.
Qed.

(** X18: what [__init__] accepts.  For a configuration that is a
    mapping, the action object is built exactly when the mapping has
    an [orion] entry, and [ValueError] for missing host details is
    raised otherwise; the object built holds the configuration, has no
    client and has sent no query. *)
Theorem init_requires_orion (m : gmap string value) (platform : nat -> result value) :
  (m !! "orion" = None ->
   init (VDict m) platform =
     Raise (ValueError "Orion host details not in the config.yaml")) /\
  (is_Some (m !! "orion") ->
   exists s, init (VDict m) platform = Ok s /\
     config s = VDict m /\ client s = None /\ queries s = [] /\ sleeps s = []).
Proof.
  unfold init. cbn [contains rbind]. split.
  - intros H. now rewrite H.
  - intros [v H]. rewrite H. cbn [negb]. eexists. now repeat split.
Qed.

(** At an unconnected object the name is resolved first; the query
    then fails on the missing client, unless the resolution itself
    has raised something that is not a [ValueError]. *)
Lemma get_snmp_cred_id_unconnected (community : value) (s : self) :
  client s = None ->
  get_snmp_cred_id community s =
    (Raise (match fst (get_snmp_community VNone community s) with
            | Raise e => if is_ValueError e then AttributeError else e
            | Ok _ => AttributeError
            end), s).
Proof.
  intros Hc. unfold get_snmp_cred_id. cbv zeta. unfold bind at 1, try_except.
  pose proof (get_snmp_community_state VNone community s) as Hs.
  destruct (get_snmp_community VNone community s) as [[v|e] s1]; simpl in Hs; subst s1.
  - unfold bind. now rewrite query_unconnected.
  - cbn [fst]. destruct (is_ValueError e); [|reflexivity].
    unfold ret, bind. now rewrite query_unconnected.
Qed.

Section Unconnected.

Variable is_ip : string -> bool.
Variable str : value -> string.

(** X9: an action object that has not connected.  On the object that
    [__init__] builds, [get_node], [get_engine_id] for a name other
    than [primary] and [get_ncm_transfer_results] raise
    [AttributeError] on the missing client.  [get_snmp_cred_id] raises
    too: [AttributeError] once the community is resolved, as a
    standard name or as itself after the [ValueError] of the
    resolution, and otherwise the exception of the resolution, which
    is not a [ValueError].  All four leave the object as it was: no
    query is sent and nothing is slept. *)
Theorem helpers_need_connect (cfg : value) (platform : nat -> result value) (s : self) :
  init cfg platform = Ok s ->
  (forall node : string, get_node is_ip str node s = (Raise AttributeError, s)) /\
  (forall poller : value,
     poller <> VStr "primary" -> get_engine_id poller s = (Raise AttributeError, s)) /\
  (forall community : value,
     get_snmp_cred_id community s =
       (Raise (match fst (get_snmp_community VNone community s) with
               | Raise e => if is_ValueError e then AttributeError else e
               | Ok _ => AttributeError
               end), s)) /\
  (forall (fuel : nat) (transfer_id : value) (sleep_delay : Z),
     get_ncm_transfer_results (S fuel) transfer_id sleep_delay s =
       Some (Raise AttributeError, s)).
Proof.
  intros Hinit. apply init_inv in Hinit as (_ & Hc & _ & _).
  split; [|split; [|split]].
  - intros node. unfold get_node, get_node_npm, bind. now rewrite query_unconnected.
  - intros poller Hp. unfold get_engine_id. rewrite (eq_str_false _ _ Hp).
    unfold bind. now rewrite query_unconnected.
  - intros community. now apply get_snmp_cred_id_unconnected.
  - intros fuel transfer_id sleep_delay.
    unfold get_ncm_transfer_results, while_True, poll, bind.
    now rewrite query_unconnected.
Qed.

End Unconnected.

(** X10: an answer without ['results'] outside [get_node].  On a
    connected action object, when the answer to the query is a mapping
    without a ['results'] entry, [get_snmp_cred_id], [get_engine_id]
    for a name other than [primary] and [get_ncm_transfer_results] all
    raise [KeyError('results')]: only [get_node] looks for the entry
    before it reads it. *)
Theorem missing_results_is_KeyError (s : self) :
  is_Some (client s) -> lacks_results (answer s 0) ->
  (forall community name : value,
     resolved_name community s name ->
     fst (get_snmp_cred_id community s) = Raise (KeyError "results")) /\
  (forall poller : value,
     poller <> VStr "primary" ->
     fst (get_engine_id poller s) = Raise (KeyError "results")) /\
  (forall (fuel : nat) (transfer_id : value) (sleep_delay : Z),
     exists s',
       get_ncm_transfer_results (S fuel) transfer_id sleep_delay s =
         Some (Raise (KeyError "results"), s')).
Proof.
  intros Hc (m & Hr & Hm). split; [|split].
  - intros community name Hname. unfold get_snmp_cred_id. cbv zeta.
    rewrite (bind_ok _ _ _ _ _ (get_snmp_cred_id_name community name s Hname)).
    unfold bind, lift. rewrite query_connected, Hr by assumption.
    now rewrite (item_key_missing _ _ Hm).
  - intros poller Hp. unfold get_engine_id. rewrite (eq_str_false _ _ Hp).
    unfold bind, lift. rewrite query_connected, Hr by assumption.
    now rewrite (item_key_missing _ _ Hm).
  - intros fuel transfer_id sleep_delay.
    unfold get_ncm_transfer_results, while_True, poll, bind, lift.
    rewrite query_connected, Hr by assumption.
    rewrite (item_key_missing _ _ Hm). eexists. reflexivity.
Qed.

(** ** The credential resolver, continued *)


(** X12: a configuration that cannot be read.  When the resolution of
    the standard name raises anything but a [ValueError],
    [get_snmp_cred_id] raises the same and sends no query: there is no
    fall back to the input as a literal community. *)
Theorem get_snmp_cred_id_resolution_error (community : value) (s : self) (e : exn) :
  fst (get_snmp_community VNone community s) = Raise e -> is_ValueError e = false ->
  get_snmp_cred_id community s = (Raise e, s).
Proof.
  intros H He. unfold get_snmp_cred_id, bind, try_except.
  pose proof (get_snmp_community_state VNone community s) as Hs.
  destruct (get_snmp_community VNone community s) as [[v|e'] s1]; simpl in *;
    [discriminate|].
  injection H as ->. subst s1. now rewrite He.
Qed.

(** ** What the helpers leave alone *)

Lemma keeps_get_snmp_community {B} (f : self -> B) (community std_community : value) :
  keeps f (get_snmp_community community std_community).
Proof. intros s. now rewrite get_snmp_community_state. Qed.

Lemma keeps_time_sleep {B} (f : self -> B) (d : Z) :
  (forall s, f (add_sleep d s) = f s) -> keeps f (time_sleep d).
Proof.
  intros H. unfold time_sleep.
  destruct (d <? 0)%Z; [apply keeps_raise|].
  destruct (9223372036 <? d)%Z; [apply keeps_raise|].
  now apply keeps_modify.
Qed.

Lemma keeps_while_True {A B} (f : self -> B) (body : act (option A)) (fuel : nat)
    (s s' : self) (r : result A) :
  keeps f body -> while_True fuel body s = Some (r, s') -> f s' = f s.
Proof.
  intros Hb. revert s. induction fuel as [|fuel IH]; intros s; [discriminate|].
  cbn [while_True]. specialize (Hb s).
  destruct (body s) as [[[b|]|e] s1]; simpl in Hb.
  - intros H. injection H as _ <-. exact Hb.
  - intros H. rewrite (IH _ H). exact Hb.
  - intros H. injection H as _ <-. exact Hb.
Qed.

Section Frame.

Variable is_ip : string -> bool.
Variable str : value -> string.

Lemma keeps_get_node {B} (f : self -> B) (node : string) :
  (forall swql kargs s, f (add_query swql kargs s) = f s) ->
  (forall l msg s, f (add_log l msg s) = f s) ->
  keeps f (get_node is_ip str node).
Proof.
  intros Hq Hl. unfold get_node, get_node_npm, get_node_ncm. cbv zeta.
  repeat first
    [ keeps_step
    | apply keeps_query; intros ?; apply Hq
    | apply keeps_modify; intros ?; apply Hl
    | progress unfold logger_info, logger_debug ].
Qed.

Lemma keeps_get_snmp_cred_id {B} (f : self -> B) (community : value) :
  (forall swql kargs s, f (add_query swql kargs s) = f s) ->
  keeps f (get_snmp_cred_id community).
Proof.
  intros Hq. unfold get_snmp_cred_id. cbv zeta.
  repeat first
    [ keeps_step
    | apply keeps_query; intros ?; apply Hq
    | apply keeps_get_snmp_community ].
Qed.

Lemma keeps_get_engine_id {B} (f : self -> B) (poller : value) :
  (forall swql kargs s, f (add_query swql kargs s) = f s) ->
  (forall msg s, f (add_user_error msg s) = f s) ->
  keeps f (get_engine_id poller).
Proof.
  intros Hq Hu. unfold get_engine_id. cbv zeta.
  repeat first
    [ keeps_step
    | apply keeps_query; intros ?; apply Hq
    | apply keeps_modify; intros ?; apply Hu
    | progress unfold send_user_error ].
Qed.

Lemma keeps_poll {B} (f : self -> B) (transfer_id : value) (sleep_delay : Z)
    (ts : gmap string value) :
  (forall swql kargs s, f (add_query swql kargs s) = f s) ->
  (forall d s, f (add_sleep d s) = f s) ->
  keeps f (poll transfer_id sleep_delay ts).
Proof.
  intros Hq Hs. unfold poll. cbv zeta.
  repeat first
    [ keeps_step
    | apply keeps_query; intros ?; apply Hq
    | apply keeps_time_sleep; intros ?; apply Hs ].
Qed.

(** X13: the helpers do not reconfigure or reconnect.  [get_node],
    [get_snmp_cred_id], [get_engine_id] and a returning
    [get_ncm_transfer_results] leave the configuration and the client
    handle of the action object as they found them, whatever the
    platform answers and whether they return or raise. *)
Theorem helpers_keep_config_and_client (s : self) :
  (forall node : string,
     config (snd (get_node is_ip str node s)) = config s /\
     client (snd (get_node is_ip str node s)) = client s) /\
  (forall community : value,
     config (snd (get_snmp_cred_id community s)) = config s /\
     client (snd (get_snmp_cred_id community s)) = client s) /\
  (forall poller : value,
     config (snd (get_engine_id poller s)) = config s /\
     client (snd (get_engine_id poller s)) = client s) /\
  (forall (fuel : nat) (transfer_id : value) (sleep_delay : Z)
          (r : result (gmap string value)) (s' : self),
     get_ncm_transfer_results fuel transfer_id sleep_delay s = Some (r, s') ->
     config s' = config s /\ client s' = client s).
Proof.
  split; [|split; [|split]].
  - intros node. split; now apply keeps_get_node.
  - intros community. split; now apply keeps_get_snmp_cred_id.
  - intros poller. split; now apply keeps_get_engine_id.
  - intros fuel transfer_id sleep_delay r s'. unfold get_ncm_transfer_results. cbv zeta.
    destruct (while_True fuel _ s) as [[[[ts data]|e] s1]|] eqn:Hw; [| |discriminate];
      intros H; injection H as _ <-;
      (split; [apply (keeps_while_True config _ _ _ _ _ (keeps_poll config _ _ _
                         (fun _ _ _ => eq_refl) (fun _ _ => eq_refl)) Hw)
              |apply (keeps_while_True client _ _ _ _ _ (keeps_poll client _ _ _
                         (fun _ _ _ => eq_refl) (fun _ _ => eq_refl)) Hw)]).
Qed.

End Frame.

(** ** The transfer-status poller, continued *)

Section PollerMore.

Variable transfer_id : value.
Variable sleep_delay : Z.







End PollerMore.

(** ** The get_node_id action, continued *)

(** X17: what the [try] block of [run] can return.  When the block
    returns a value, the action object was connected and the value is
    the answer of the platform to the one query sent, which has no
    parameters: the marker ["empty"] of the handler is never part of a
    returned value of its own making. *)
Theorem run_query_returns_the_answer (swql : string) (s s' : self) (v : value) :
  GetNodeId.run_query swql s = (Ok v, s') ->
  is_Some (client s) /\ answer s 0 = Ok v /\
  queries s' = (queries s ++ [(swql, ∅)])%list.
Proof.
  unfold GetNodeId.run_query. cbv zeta. intros H.
  apply bind_inv in H as (od & s1 & H1 & H).
  apply try_except_ok_inv in H1 as [H1|(e & s0 & _ & _ & H1)].
  - apply bind_inv in H1 as (data & s2 & Hq & H1).
    apply query_ok_inv in Hq as (Hc & Hans & Hs2).
    injection H1 as Hod Hs1. apply lift_ok_inv in H as [H Hs'].
    subst od s2 s1 s'. injection H as <-. now repeat split.
  - apply bind_inv in H1 as (d & s2 & H1 & _). discriminate.
Qed.

(** ** The further properties at work on examples *)

Lemma connect_stores_configured_handle_witness :
  (exists h u pw : value,
     client (snd (connect example_str VNone lab_default_self)) =
       Some {| hostname := h; username := u; password := pw |} /\
     (Ok (config lab_default_self))@["orion"]@[VStr "lab"]@["host"] = Ok h /\
     (Ok (config lab_default_self))@["orion"]@[VStr "lab"]@["user"] = Ok u /\
     (Ok (config lab_default_self))@["orion"]@[VStr "lab"]@["password"] = Ok pw) /\
  queries (snd (connect example_str VNone lab_default_self)) = [].
Proof.
  assert (H : connect example_str VNone lab_default_self =
              (Ok (VStr "lab"), snd (connect example_str VNone lab_default_self)))
    by reflexivity.
  destruct (connect_stores_configured_handle example_str _ _ _ _ H)
    as (_ & _ & Hh & _ & Hq).
  split; [exact Hh|exact Hq].
Defined.

Lemma example_unconfigured : unconfigured (config (example_self [])) "prod".
Proof.
  eexists. split; [reflexivity|]. right.
  eexists. split; [reflexivity|]. left. reflexivity.
Defined.

Lemma connect_unconfigured_platform_witness :
  fst (connect example_str (VStr "prod") (example_self [])) =
    Raise (ValueError "Orion host details not in the config.yaml") /\
  client (snd (connect example_str (VStr "prod") (example_self []))) =
    Some example_client.
Proof.
  exact (connect_unconfigured_platform example_str "prod" (example_self [])
           example_unconfigured).
Defined.

Lemma connect_failure_keeps_client_witness :
  client (snd (connect example_str VNone (example_self []))) = Some example_client /\
  config (snd (connect example_str VNone (example_self []))) = example_config /\
  queries (snd (connect example_str VNone (example_self []))) = [].
Proof.
  exact (connect_failure_keeps_client example_str VNone (example_self [])
           (KeyError (VStr "platform")) eq_refl).
Defined.

Lemma example_column (r : gmap string value) (col : string) (v : value) :
  r !! col = Some v -> column (VDict r) col v.
Proof. intros H. exists r. split; [reflexivity|exact H]. Defined.

Lemma get_engine_id_lookup_witness :
  fst (get_engine_id (VStr "poller2") (example_self [results [example_engine_row]])) =
    Ok (VInt 3) /\
  queries (snd (get_engine_id (VStr "poller2")
                  (example_self [results [example_engine_row]]))) =
    [("SELECT EngineID, ServerName, IP, ServerType
            FROM Orion.Engines
            WHERE ServerName=@poller",
      {[ "poller" := VStr "poller2" ]})] /\
  fst (get_engine_id (VStr "nobody") (example_self [results []])) =
    Raise (ValueError "Invalid poller name") /\
  user_errors (snd (get_engine_id (VStr "nobody") (example_self [results []]))) =
    ["Invalid poller name"].
Proof.
  destruct (get_engine_id_lookup (VStr "poller2")
              (example_self [results [example_engine_row]])) as (_ & H).
  destruct H as (Hq & H1 & _); [discriminate|apply example_connected|].
  destruct (get_engine_id_lookup (VStr "nobody") (example_self [results []])) as (_ & H).
  destruct H as (_ & _ & H2); [discriminate|apply example_connected|].
  split; [|split].
  - apply (H1 _ _ (example_yields _ _)). now apply example_column.
  - exact Hq.
  - apply (H2 _ (example_yields _ _)). discriminate.
Defined.

Lemma get_node_missing_column_witness :
  fst (get_node example_is_ip example_str "core-sw1"
         (example_self [results [VDict example_short_row]])) =
    Raise (KeyError (VStr "Uri")).
Proof.
  apply (get_node_missing_column example_is_ip example_str "core-sw1"
           (example_self [results [VDict example_short_row]]) example_short_row "Uri").
  - apply example_connected.
  - apply example_yields.
  - reflexivity.
Defined.

Lemma get_node_record_complete_witness :
  exists data : value,
    answer (example_self [results [example_row]; results [example_ncm_row]]) 0 = Ok data /\
    ((rbind (Ok data)@["results"] len = Ok 0 /\ example_node = OrionNode_new) \/
     (rbind (Ok data)@["results"] len = Ok 1 /\
      (Ok data)@["results"]@[VInt 0]@["NodeID"] = Ok (npm_id example_node) /\
      (Ok data)@["results"]@[VInt 0]@["Uri"] = Ok (uri example_node) /\
      (Ok data)@["results"]@[VInt 0]@["IPAddress"] = Ok (ip_address example_node) /\
      (Ok data)@["results"]@[VInt 0]@["Caption"] = Ok (caption example_node))).
Proof.
  exact (get_node_record_complete example_is_ip example_str "core-sw1" _ _ _
           example_get_node).
Defined.

Lemma get_node_ncm_rows_witness :
  fst (get_node example_is_ip example_str "core-sw1"
         (example_self [results [example_row];
                        results [example_ncm_row; example_ncm_row]])) =
    Ok {| npm_id := VInt 42; uri := VStr "swis://orion.lab/Orion/Orion.Nodes/NodeID=42";
          ip_address := VStr "10.0.0.7"; caption := VStr "core-sw1"; ncm_id := VNone |} /\
  fst (get_node example_is_ip example_str "core-sw1"
         (example_self [results [example_row]; results [example_ncm_row]])) =
    Ok example_node.
Proof.
  split.
  - apply (proj1 (get_node_ncm_rows example_is_ip example_str "core-sw1"
                    (example_self [results [example_row];
                                   results [example_ncm_row; example_ncm_row]])
                    example_row _ _ _ _ (example_connected _) (example_yields _ _)
                    example_row_columns ltac:(discriminate))
             [example_ncm_row; example_ncm_row]).
    + eexists. split; reflexivity.
    + discriminate.
  - apply (proj2 (get_node_ncm_rows example_is_ip example_str "core-sw1"
                    (example_self [results [example_row]; results [example_ncm_row]])
                    example_row _ _ _ _ (example_connected _) (example_yields _ _)
                    example_row_columns ltac:(discriminate))
             example_ncm_row (VInt 7)).
    + eexists. split; reflexivity.
    + now apply example_column.
Defined.

Lemma get_node_client_error_witness :
  fst (get_node example_is_ip example_str "core-sw1"
         (example_self [Raise (TransportError "timed out")])) =
    Raise (TransportError "timed out") /\
  fst (get_node example_is_ip example_str "core-sw1"
         (example_self [results [example_row]; Raise (TransportError "timed out")])) =
    Raise (TransportError "timed out").
Proof.
  split.
  - rewrite (proj1 (get_node_client_error example_is_ip example_str "core-sw1"
                      (example_self [Raise (TransportError "timed out")])
                      (TransportError "timed out") (example_connected _)) eq_refl).
    reflexivity.
  - apply (proj2 (get_node_client_error example_is_ip example_str "core-sw1"
                    (example_self [results [example_row];
                                   Raise (TransportError "timed out")])
                    (TransportError "timed out") (example_connected _))
             example_row _ _ _ _ (example_yields _ _) example_row_columns).
    + discriminate.
    + reflexivity.
Defined.

(** The object built from the configuration without a default
    platform, and the one built from a configuration whose [defaults]
    entry is [None]. *)
Lemma helpers_need_connect_witness :
  (get_node example_is_ip example_str "core-sw1" no_default_self =
     (Raise AttributeError, no_default_self) /\
   get_engine_id (VStr "poller2") no_default_self =
     (Raise AttributeError, no_default_self) /\
   get_snmp_cred_id (VStr "ro") no_default_self =
     (Raise AttributeError, no_default_self) /\
   get_ncm_transfer_results 1 (VInt 7) default_sleep_delay no_default_self =
     Some (Raise AttributeError, no_default_self)) /\
  get_snmp_cred_id (VStr "ro") (set_client None null_defaults_self) =
    (Raise TypeError, set_client None null_defaults_self).
Proof.
  destruct (helpers_need_connect example_is_ip example_str no_default_config (scripted [])
              no_default_self init_no_default) as (H1 & H2 & H3 & H4).
  destruct (helpers_need_connect example_is_ip example_str
              (config null_defaults_self) (scripted [])
              (set_client None null_defaults_self) eq_refl) as (_ & _ & H3' & _).
  split; [split; [apply H1|split; [apply H2; discriminate|split; [|apply H4]]]|].
  - rewrite (H3 (VStr "ro")). reflexivity.
  - rewrite (H3' (VStr "ro")). reflexivity.
Defined.

Lemma example_lacks_results (rest : list (result value)) :
  lacks_results (answer (example_self (Ok (VDict ∅) :: rest)) 0).
Proof. exists ∅. split; reflexivity. Defined.

Lemma missing_results_is_KeyError_witness :
  fst (get_snmp_cred_id (VStr "ro") (example_self [Ok (VDict ∅)])) =
    Raise (KeyError "results") /\
  fst (get_engine_id (VStr "poller2") (example_self [Ok (VDict ∅)])) =
    Raise (KeyError "results") /\
  (exists s',
     get_ncm_transfer_results 1 (VInt 7) default_sleep_delay (example_self [Ok (VDict ∅)]) =
       Some (Raise (KeyError "results"), s')).
Proof.
  destruct (missing_results_is_KeyError (example_self [Ok (VDict ∅)])
              (example_connected _) (example_lacks_results _)) as (H1 & H2 & H3).
  split; [|split].
  - apply (H1 (VStr "ro") (VStr "public")). left. reflexivity.
  - apply H2. discriminate.
  - apply H3.
Defined.

Lemma get_snmp_cred_id_resolution_error_witness :
  get_snmp_cred_id (VStr "ro") null_defaults_self = (Raise TypeError, null_defaults_self).
Proof.
  exact (get_snmp_cred_id_resolution_error (VStr "ro") null_defaults_self TypeError
           eq_refl eq_refl).
Defined.

Lemma helpers_keep_config_and_client_witness :
  exists r s',
    get_ncm_transfer_results 1 (VInt 7) 0 (example_self [example_transfer 2]) =
      Some (r, s') /\
    config s' = example_config /\ client s' = Some example_client.
Proof.
  destruct (helpers_keep_config_and_client example_is_ip example_str
              (example_self [example_transfer 2])) as (_ & _ & _ & H).
  destruct (get_ncm_transfer_results 1 (VInt 7) 0 (example_self [example_transfer 2]))
    as [[r s']|] eqn:E.
  - exists r, s'. split; [reflexivity|]. exact (H _ _ _ _ _ E).
  - vm_compute in E. discriminate E.
Defined.







Lemma run_query_returns_the_answer_witness :
  is_Some (client (example_self [results []])) /\
  answer (example_self [results []]) 0 = results [] /\
  queries (snd (GetNodeId.run_query "SELECT nodeid, sysname, caption FROM Orion.Nodes"
                  (example_self [results []]))) =
    [("SELECT nodeid, sysname, caption FROM Orion.Nodes", ∅)].
Proof.
  apply (run_query_returns_the_answer
           "SELECT nodeid, sysname, caption FROM Orion.Nodes"
           (example_self [results []])).
  reflexivity.
Defined.
